(** * Logpush: task selection, display formatting and notification gating

    A shallow embedding of the core of [src/main.py]: the TODO/SCHEDULED
    line parser, the sort by due time, the fixed-width display formatter,
    the notification gate and the widget writer, with the properties the
    specification states about them.

    Python [str] values are modelled as lists of 8-bit code points
    ([list ascii], code points 0..255).  On that range [str.isspace] and the
    regular-expression class [\d] are exactly the sets given below. *)

From Stdlib Require Import Ascii String.
From Stdlib Require Import List ZArith Lia Bool Arith PeanoNat.
From Stdlib Require Import Sorting.Sorted Sorting.Permutation.
From Stdlib Require DecimalString DecimalNat DecimalFacts.
Import ListNotations.

Set Implicit Arguments.

(** ** Python values and outcomes *)

Definition str := list ascii.

(** A string literal of the source. *)
Definition lit (s : string) : str := list_ascii_of_string s.

(** Exceptions the modelled code can raise. *)
Inductive exn := TypeError | ValueError | IndexError.

(** Outcome of running a piece of the program: a value, an uncaught
    exception, or [NoFuel] when a [while] loop was cut after the given
    number of iterations. *)
Inductive result (A : Type) : Type :=
| Ret (a : A)
| Raise (e : exn)
| NoFuel.

Arguments Ret {A} a.
Arguments Raise {A} e.
Arguments NoFuel {A}.

Definition bind {A B} (m : result A) (k : A -> result B) : result B :=
  match m with
  | Ret a => k a
  | Raise e => Raise e
  | NoFuel => NoFuel
  end.

Notation "x <- m ;; k" := (bind m (fun x => k))
  (at level 61, m at next level, right associativity).

(** ** String primitives *)

(** [str.isspace] on one character (code points below 256): TAB..CR,
    FS..US, SPACE, NEL and NBSP. *)
Definition isspace (c : ascii) : bool :=
  let n := nat_of_ascii c in
  ((9 <=? n) && (n <=? 13)) || ((28 <=? n) && (n <=? 32))
  || (n =? 133) || (n =? 160).

Fixpoint lstrip (s : str) : str :=
  match s with
  | [] => []
  | c :: s' => if isspace c then lstrip s' else s
  end.

Fixpoint rstrip (s : str) : str :=
  match s with
  | [] => []
  | c :: s' =>
      match rstrip s' with
      | [] => if isspace c then [] else [c]
      | t => c :: t
      end
  end.

(** [s.strip()] *)
Definition strip (s : str) : str := rstrip (lstrip s).

(** [s[:n]] for a Python integer [n]: a negative bound counts from the end
    and is clamped at 0; a bound past the end is clamped at [len(s)]. *)
Definition slice_to (s : str) (n : Z) : str :=
  if (n <? 0)%Z then firstn (Z.to_nat (Z.of_nat (length s) + n)) s
  else firstn (Z.to_nat n) s.

(** [len(s)] as a Python integer. *)
Definition len (s : str) : Z := Z.of_nat (length s).

Definition space : ascii := " "%char.
Definition ellipsis : str := lit "...".

(** ** truncate_task_description *)

(** The loop [while end > 0 and task_description[end] != ' ': end -= 1],
    started at a positive [end].  Indexing past the end raises. *)
Fixpoint find_space (desc : str) (e : nat) : result nat :=
  match e with
  | 0 => Ret 0
  | S e' =>
      match nth_error desc e with
      | None => Raise IndexError
      | Some c => if Ascii.eqb c space then Ret e else find_space desc e'
      end
  end.

(** The loop
    [while len(truncated) + 3 > trunc_length:
       truncated = truncated[:len(truncated) - 1].strip()]. *)
Fixpoint drop_until_fits (fuel : nat) (truncated : str) (trunc_length : Z)
  : result str :=
  match fuel with
  | 0 => NoFuel
  | S fuel' =>
      if (len truncated + 3 >? trunc_length)%Z
      then drop_until_fits fuel'
             (strip (slice_to truncated (len truncated - 1))) trunc_length
      else Ret truncated
  end.

Definition truncate_task_description (fuel : nat) (task_description : str)
  (trunc_length : Z) : result str :=
  if (len task_description <=? trunc_length)%Z then Ret task_description
  else
    e <- (if (0 <? trunc_length)%Z
          then n <- find_space task_description (Z.to_nat trunc_length) ;;
               Ret (Z.of_nat n)
          else Ret trunc_length) ;;
    if (e =? 0)%Z
    then Ret (strip (slice_to task_description (trunc_length - 3)) ++ ellipsis)
    else
      truncated <- drop_until_fits fuel (strip (slice_to task_description e))
                     trunc_length ;;
      Ret (truncated ++ ellipsis).

(** ** Prefix, substring and fixed-width regular expressions *)

Fixpoint str_eqb (a b : str) : bool :=
  match a, b with
  | [], [] => true
  | x :: a', y :: b' => Ascii.eqb x y && str_eqb a' b'
  | _, _ => false
  end.

(** [s.startswith(p)] *)
Fixpoint startswith (p s : str) : bool :=
  match p, s with
  | [], _ => true
  | a :: p', b :: s' => Ascii.eqb a b && startswith p' s'
  | _ :: _, [] => false
  end.

(** [sub in s] *)
Fixpoint contains (sub s : str) : bool :=
  startswith sub s ||
  match s with
  | [] => false
  | _ :: s' => contains sub s'
  end.

(** The regular expressions of the source are sequences of one-character
    classes; such a pattern is a list of character predicates. *)
Definition pattern := list (ascii -> bool).

Definition is_digit (c : ascii) : bool :=
  (48 <=? nat_of_ascii c) && (nat_of_ascii c <=? 57).

Definition chars (s : string) : pattern := map Ascii.eqb (lit s).

(** [\d{4}-\d{2}-\d{2}] *)
Definition date_pattern : pattern :=
  [is_digit; is_digit; is_digit; is_digit; Ascii.eqb "-"%char;
   is_digit; is_digit; Ascii.eqb "-"%char; is_digit; is_digit].

(** [\d{2}:\d{2}] *)
Definition time_pattern : pattern :=
  [is_digit; is_digit; Ascii.eqb ":"%char; is_digit; is_digit].

(** [re.match(p, s)]: the pattern matches at the start of [s]. *)
Fixpoint re_match (p : pattern) (s : str) : bool :=
  match p, s with
  | [], _ => true
  | f :: p', c :: s' => f c && re_match p' s'
  | _ :: _, [] => false
  end.

(** [re.search(p, s)]: the leftmost position at which the pattern matches,
    returned as the rest of the string from that position on. *)
Fixpoint re_search (p : pattern) (s : str) : option str :=
  if re_match p s then Some s
  else match s with
       | [] => None
       | _ :: s' => re_search p s'
       end.

(** ** parse_task_line and parse_scheduled_line *)

Definition newline : ascii := ascii_of_nat 10.

(** The greedy [.+]: the longest run of characters other than newline. *)
Fixpoint dot_plus (s : str) : str :=
  match s with
  | [] => []
  | c :: s' => if Ascii.eqb c newline then [] else c :: dot_plus s'
  end.

(** [re.match(r"- TODO (.+)", line)] and its group 1. *)
Definition parse_task_line (line : str) : option str :=
  if startswith (lit "- TODO ") line
  then match dot_plus (skipn 7 line) with
       | [] => None
       | g => Some g
       end
  else None.

Definition parse_scheduled_line (line : str) : option str * option str :=
  let date_match := re_search (chars "SCHEDULED: <" ++ date_pattern) line in
  let time_match := re_search time_pattern line in
  (option_map (fun m => firstn 10 (skipn 12 m)) date_match,
   option_map (firstn 5) time_match).

(** ** Dates and times *)

(** A naive [datetime]. *)
Record datetime := mkdt {
  year : Z; month : Z; day : Z;
  hour : Z; minute : Z; second : Z; microsecond : Z }.

Local Open Scope Z_scope.

Definition is_leap (y : Z) : bool :=
  (y mod 4 =? 0) && (negb (y mod 100 =? 0) || (y mod 400 =? 0)).

Definition days_in_month (y m : Z) : Z :=
  match m with
  | 2 => if is_leap y then 29 else 28
  | 4 | 6 | 9 | 11 => 30
  | _ => 31
  end.

Definition digit_val (c : ascii) : Z := Z.of_nat (nat_of_ascii c) - 48.

(** [int(s)] on a run of decimal digits. *)
Definition num (s : str) : Z :=
  fold_left (fun acc c => 10 * acc + digit_val c) s 0.

(** What the [datetime] constructor accepts as a date. *)
Definition valid_date (y m d : Z) : bool :=
  (1 <=? y) && (y <=? 9999) && (1 <=? m) && (m <=? 12)
  && (1 <=? d) && (d <=? days_in_month y m).

Definition valid_time (h mi : Z) : bool :=
  (0 <=? h) && (h <=? 23) && (0 <=? mi) && (mi <=? 59).

(** [datetime.strptime(date, '%Y-%m-%d')] on a token matched by
    [\d{4}-\d{2}-\d{2}]: the three fields are read off their fixed
    positions; a field out of range raises [ValueError]. *)
Definition strptime_date (date : str) : result datetime :=
  let y := num (firstn 4 date) in
  let m := num (firstn 2 (skipn 5 date)) in
  let d := num (firstn 2 (skipn 8 date)) in
  if valid_date y m d then Ret (mkdt y m d 0 0 0 0) else Raise ValueError.

(** [datetime.strptime(f'{date} {time}', '%Y-%m-%d %H:%M')] on tokens
    matched by [\d{4}-\d{2}-\d{2}] and [\d{2}:\d{2}]. *)
Definition strptime_date_time (date time : str) : result datetime :=
  let y := num (firstn 4 date) in
  let m := num (firstn 2 (skipn 5 date)) in
  let d := num (firstn 2 (skipn 8 date)) in
  let h := num (firstn 2 time) in
  let mi := num (firstn 2 (skipn 3 time)) in
  if valid_date y m d && valid_time h mi
  then Ret (mkdt y m d h mi 0 0) else Raise ValueError.

(** Comparison of naive datetimes: lexicographic on the seven fields. *)
Definition dt_fields (d : datetime) : list Z :=
  [year d; month d; day d; hour d; minute d; second d; microsecond d].

Fixpoint lex_ltb (a b : list Z) : bool :=
  match a, b with
  | x :: a', y :: b' => if x =? y then lex_ltb a' b' else x <? y
  | [], _ :: _ => true
  | _, [] => false
  end.

Fixpoint lex_eqb (a b : list Z) : bool :=
  match a, b with
  | x :: a', y :: b' => (x =? y) && lex_eqb a' b'
  | [], [] => true
  | _, _ => false
  end.

Definition dt_ltb (a b : datetime) : bool := lex_ltb (dt_fields a) (dt_fields b).
Definition dt_eqb (a b : datetime) : bool := lex_eqb (dt_fields a) (dt_fields b).

(** [a <= b] on datetimes. *)
Definition dt_leb (a b : datetime) : bool := dt_ltb a b || dt_eqb a b.

Definition datetime_max : datetime := mkdt 9999 12 31 23 59 59 999999.

(** Proleptic Gregorian ordinal of a date ([date.toordinal]). *)
Definition days_before_year (y : Z) : Z :=
  let y1 := y - 1 in
  y1 * 365 + y1 / 4 - y1 / 100 + y1 / 400.

Definition days_before_month (y m : Z) : Z :=
  fold_right Z.add 0
    (map (fun k => days_in_month y (Z.of_nat k)) (seq 1 (Z.to_nat m - 1))).

Definition toordinal (d : datetime) : Z :=
  days_before_year (year d) + days_before_month (year d) (month d) + day d.

(** [(a - b)] as a whole number of microseconds: the [timedelta] of the
    source has [days], [seconds] and [microseconds] with exactly this
    total. *)
Definition timedelta_us (a b : datetime) : Z :=
  let secs d := second d + 60 * minute d + 3600 * hour d in
  ((toordinal a - toordinal b) * 86400 + (secs a - secs b)) * 1000000
  + (microsecond a - microsecond b).

(** [0 <= time_difference.total_seconds() <= 180].  [total_seconds] is the
    correctly rounded quotient of the microsecond total by 10**6, so both
    comparisons agree with the comparisons on whole microseconds. *)
Definition due_soon (scheduled now : datetime) : bool :=
  let us := timedelta_us scheduled now in
  (0 <=? us) && (us <=? 180 * 1000000).

(** Decimal digits. *)
Definition digit_char (n : Z) : ascii :=
  ascii_of_nat (48 + Z.to_nat (n mod 10)).

Definition pad2 (n : Z) : str := [digit_char (n / 10); digit_char n].
Definition pad4 (n : Z) : str :=
  [digit_char (n / 1000); digit_char (n / 100); digit_char (n / 10);
   digit_char n].
Definition pad6 (n : Z) : str :=
  [digit_char (n / 100000); digit_char (n / 10000); digit_char (n / 1000);
   digit_char (n / 100); digit_char (n / 10); digit_char n].

(** [%-m] and [%-d]: a month or a day of the month without padding. *)
Definition unpadded (n : Z) : str :=
  if n <? 10 then [digit_char n] else pad2 n.

(** [dt.strftime('%-m/%-d/%y')] *)
Definition format_date (dt : datetime) : str :=
  unpadded (month dt) ++ lit "/" ++ unpadded (day dt) ++ lit "/"
  ++ pad2 (year dt mod 100).

(** [dt.isoformat()] *)
Definition isoformat (dt : datetime) : str :=
  pad4 (year dt) ++ lit "-" ++ pad2 (month dt) ++ lit "-" ++ pad2 (day dt)
  ++ lit "T" ++ pad2 (hour dt) ++ lit ":" ++ pad2 (minute dt) ++ lit ":"
  ++ pad2 (second dt)
  ++ (if microsecond dt =? 0 then [] else lit "." ++ pad6 (microsecond dt)).

Local Close Scope Z_scope.

(** ** Tasks: the parsing loop and the sort of main *)

(** A task as [main] builds it: [(task_description, scheduled_date_time)],
    where either component may be [None]. *)
Definition task : Type := option str * option datetime.

Definition todo_marker : str := lit "- TODO".
Definition scheduled_marker : str := lit "SCHEDULED:".

(** The [while i < len(lines)] loop of [main].  A line that is a task and
    is followed by a dated scheduling line consumes both; any other line
    consumes one.  With no following line [next_line] is [''], which
    contains no marker. *)
Fixpoint parse_lines (lines : list str) : result (list task) :=
  match lines with
  | [] => Ret []
  | raw :: rest =>
      let line := strip raw in
      if startswith todo_marker line then
        let task_description := parse_task_line line in
        match rest with
        | [] => Ret [(task_description, None)]
        | raw_next :: rest' =>
            let next_line := strip raw_next in
            if contains scheduled_marker next_line then
              match parse_scheduled_line next_line with
              | (Some scheduled_date, scheduled_time) =>
                  scheduled_date_time <-
                    match scheduled_time with
                    | Some t => strptime_date_time scheduled_date t
                    | None => strptime_date scheduled_date
                    end ;;
                  tasks <- parse_lines rest' ;;
                  Ret ((task_description, Some scheduled_date_time) :: tasks)
              | (None, _) =>
                  tasks <- parse_lines rest ;;
                  Ret ((task_description, None) :: tasks)
              end
            else
              tasks <- parse_lines rest ;;
              Ret ((task_description, None) :: tasks)
        end
      else parse_lines rest
  end.

(** The sort key [(x[1] is None, x[1] or datetime.max)]. *)
Definition sort_key (x : task) : bool * datetime :=
  match snd x with
  | None => (true, datetime_max)
  | Some d => (false, d)
  end.

(** [<] on the key tuples: the first components that differ decide. *)
Definition key_ltb (a b : bool * datetime) : bool :=
  if Bool.eqb (fst a) (fst b)
  then (if dt_eqb (snd a) (snd b) then false else dt_ltb (snd a) (snd b))
  else negb (fst a) && fst b.

(** [tasks.sort(key=...)] is a stable sort that compares keys with [<]
    only; a stable sort is determined by the order on the keys, and is
    written here as a stable insertion sort. *)
Fixpoint insert_task (x : task) (l : list task) : list task :=
  match l with
  | [] => [x]
  | y :: l' =>
      if key_ltb (sort_key y) (sort_key x) then y :: insert_task x l'
      else x :: y :: l'
  end.

Definition sort_tasks (l : list task) : list task :=
  fold_right insert_task [] l.

(** ** Display formatting *)

Definition total_length : Z := 40.
Definition max_tasks : nat := 5.

(** [' ' * n] *)
Definition spaces (n : Z) : str := repeat space (Z.to_nat n).

Definition pad_task_description_with_date (description formatted_date : str)
  (total : Z) : str :=
  let space_needed := (total - len description - len formatted_date - 3)%Z in
  let padded_description := description ++ spaces space_needed in
  padded_description ++ lit " (" ++ formatted_date ++ lit ")".

(** [s.ljust(width)] *)
Definition ljust (s : str) (width : Z) : str := s ++ spaces (width - len s).

(** ** The notification gate *)

(** The tracker file is [None] when it does not exist and [Some content]
    otherwise.  Returns the decision and the tracker file afterwards. *)
Definition should_send_notification (tracker_file : option str)
  (task_time : str) : bool * option str :=
  match tracker_file with
  | Some content =>
      let last_notification_time := strip content in
      if str_eqb last_notification_time task_time
      then (false, tracker_file)
      else (true, Some task_time)
  | None => (true, Some task_time)
  end.

(** ** The rendering loop of main *)

(** Effects of one run, in the order they happen.  [GateCall] records a
    call of [should_send_notification] with the slot it was made for. *)
Inductive event :=
| WriteWidget (index : nat) (content : str)
| GateCall (slot : nat) (task_time : str) (permit : bool)
| Push (title body : str).

Record world := mkworld { trace : list event; tracker : option str }.

Definition emit (ev : event) (w : world) : world :=
  mkworld (trace w ++ [ev]) (tracker w).

(** The file [pushWidget{index}.txt] is opened for writing and receives
    the text. *)
Definition write_task_file (task_text : str) (index : nat) (w : world)
  : world :=
  emit (WriteWidget index task_text) w.

(** The push is handed to the transport.  [main] does not look at what
    the call returns; the transport itself is outside this model. *)
Definition send_pushbullet_notification (title body : str) (w : world)
  : world :=
  emit (Push title body) w.

(** [truncate_task_description] as [main] calls it: the description may be
    [None], on which [len] raises [TypeError].  The loop bound is more than
    the loop can use on any limit of 3 or more (lemma
    [drop_until_fits_enough]). *)
Definition truncate_call (task_description : option str) (trunc_length : Z)
  : result str :=
  match task_description with
  | None => Raise TypeError
  | Some d => truncate_task_description (S (length d)) d trunc_length
  end.

(** The [if 0 <= ... <= 180] block. *)
Definition notify (now : datetime) (i : nat) (scheduled_date_time : datetime)
  (display_task : str) (w : world) : world :=
  if due_soon scheduled_date_time now then
    let task_time := isoformat scheduled_date_time in
    let '(permit, tracker') := should_send_notification (tracker w) task_time in
    let w1 := mkworld (trace w ++ [GateCall i task_time permit]) tracker' in
    if permit
    then send_pushbullet_notification (lit "Task Notification")
           (display_task ++ lit " is due soon!") w1
    else w1
  else w.

(** The body of [for i in range(max_tasks)]. *)
Definition render_slot (now : datetime) (tasks : list task) (i : nat)
  (w : world) : world * result unit :=
  match nth_error tasks i with
  | Some (task_description, Some scheduled_date_time) =>
      let formatted_date := format_date scheduled_date_time in
      let date_length := (len formatted_date + 3)%Z in
      let trunc_length_with_date := (total_length - date_length)%Z in
      match truncate_call task_description trunc_length_with_date with
      | Ret truncated_task =>
          let display_task :=
            pad_task_description_with_date truncated_task formatted_date
              total_length in
          let w1 := notify now i scheduled_date_time display_task w in
          (write_task_file display_task i w1, Ret tt)
      | Raise e => (w, Raise e)
      | NoFuel => (w, NoFuel)
      end
  | Some (task_description, None) =>
      match truncate_call task_description total_length with
      | Ret truncated_task =>
          (write_task_file (ljust truncated_task total_length) i w, Ret tt)
      | Raise e => (w, Raise e)
      | NoFuel => (w, NoFuel)
      end
  | None => (write_task_file (spaces total_length) i w, Ret tt)
  end.

Fixpoint for_range (body : nat -> world -> world * result unit)
  (indices : list nat) (w : world) : world * result unit :=
  match indices with
  | [] => (w, Ret tt)
  | i :: rest =>
      match body i w with
      | (w', Ret _) => for_range body rest w'
      | (w', r) => (w', r)
      end
  end.

Definition render_all (now : datetime) (tasks : list task) (w : world)
  : world * result unit :=
  for_range (render_slot now tasks) (seq 0 max_tasks) w.

(** [main] from [now = datetime.now()] on, with the lines of the markdown
    file and the tracker file as they are found: parse, sort, render.
    Configuration, paths and the API key are outside the model. *)
Definition main (now : datetime) (lines : list str)
  (tracker_file : option str) : world * result unit :=
  let w := mkworld [] tracker_file in
  match parse_lines lines with
  | Ret tasks => render_all now (sort_tasks tasks) w
  | Raise e => (w, Raise e)
  | NoFuel => (w, NoFuel)
  end.

(** ** Properties the claims are stated with *)




(** The order of the sort. *)

(** A key tuple as the list of numbers its comparison goes through. *)
Definition key_fields (k : bool * datetime) : list Z :=
  (if fst k then 1%Z else 0%Z) :: dt_fields (snd k).

(** [a <= b] on keys, as the sort sees it: not [b < a]. *)
Definition lex_leb (a b : list Z) : bool := negb (lex_ltb b a).

(** The order in which the sort leaves two tasks: the later one's key is
    not below the earlier one's. *)
Definition task_le (x y : task) : Prop :=
  key_ltb (sort_key y) (sort_key x) = false.

(** ** The extraction as the specification words it *)

(** The substrings of a line of a given width, from each position on. *)
Definition candidates (width : nat) (line : str) : list str :=
  map (fun p => firstn width (skipn p line)) (seq 0 (S (length line))).

(** The first token of a given shape appearing anywhere in the line. *)
Definition first_token (width : nat) (shape : str -> bool) (line : str)
  : option str :=
  find shape (candidates width line).

(** A [YYYY-MM-DD]-shaped token. *)
Definition date_shaped (tok : str) : bool :=
  match tok with
  | [y1; y2; y3; y4; s1; m1; m2; s2; d1; d2] =>
      forallb is_digit [y1; y2; y3; y4; m1; m2; d1; d2]
      && Ascii.eqb "-"%char s1 && Ascii.eqb "-"%char s2
  | _ => false
  end.

(** An [HH:MM]-shaped token. *)
Definition time_shaped (tok : str) : bool :=
  match tok with
  | [h1; h2; s; m1; m2] =>
      forallb is_digit [h1; h2; m1; m2] && Ascii.eqb ":"%char s
  | _ => false
  end.

(** A date-shaped token directly after ['SCHEDULED: <']. *)
Definition scheduled_date_shaped (tok : str) : bool :=
  startswith (lit "SCHEDULED: <") tok && date_shaped (skipn 12 tok).

(** ** Reading a trace *)

(** The widget files written, in order. *)
Fixpoint writes (tr : list event) : list (nat * str) :=
  match tr with
  | [] => []
  | WriteWidget i content :: tr' => (i, content) :: writes tr'
  | _ :: tr' => writes tr'
  end.

(** The slots for which the gate was consulted, in order. *)
Fixpoint gate_slots (tr : list event) : list nat :=
  match tr with
  | [] => []
  | GateCall i _ _ :: tr' => i :: gate_slots tr'
  | _ :: tr' => gate_slots tr'
  end.

(** The task in slot [i] is dated and due within the 180 seconds that
    follow [now]. *)
Definition slot_due_soon (now : datetime) (tasks : list task) (i : nat)
  : bool :=
  match nth_error tasks i with
  | Some (_, Some d) => due_soon d now
  | _ => false
  end.

(** The task in slot [i], if any, carries a description. *)
Definition described (tasks : list task) (i : nat) : Prop :=
  forall d due, nth_error tasks i = Some (d, due) -> d <> None.

(** What the specification asks of a written widget file: 40 characters,
    all of them spaces when its slot is beyond the task count. *)
Definition well_rendered (tasks : list task) (f : nat * str) : Prop :=
  len (snd f) = 40%Z /\ (nth_error tasks (fst f) = None -> snd f = spaces 40).

(** The task comes from one of the lines: stripped, the line begins with
    ['- TODO'], and the description is what [parse_task_line] makes of it. *)
Definition from_marked_line (lines : list str) (t : task) : Prop :=
  exists raw, In raw lines
              /\ startswith todo_marker (strip raw) = true
              /\ fst t = parse_task_line (strip raw).

(** ** More readings of a run *)

(** A text without any whitespace character. *)
Definition no_whitespace (s : str) : bool :=
  forallb (fun c => negb (isspace c)) s.

(** The pushes handed to the transport, in order. *)
Fixpoint pushes (tr : list event) : list (str * str) :=
  match tr with
  | [] => []
  | Push title body :: tr' => (title, body) :: pushes tr'
  | _ :: tr' => pushes tr'
  end.

(** The identities the gate was asked about, each with its answer. *)
Fixpoint gate_calls (tr : list event) : list (str * bool) :=
  match tr with
  | [] => []
  | GateCall _ task_time permit :: tr' => (task_time, permit) :: gate_calls tr'
  | _ :: tr' => gate_calls tr'
  end.

(** The timestamp identity of slot [i] when its task is dated and due
    soon. *)
Definition slot_identity (now : datetime) (tasks : list task) (i : nat)
  : option str :=
  match nth_error tasks i with
  | Some (_, Some d) => if due_soon d now then Some (isoformat d) else None
  | _ => None
  end.

(** The identities of the due-soon slots among [indices], in slot order. *)
Definition due_identities (now : datetime) (tasks : list task)
  (indices : list nat) : list str :=
  flat_map (fun i => match slot_identity now tasks i with
                     | Some t => [t]
                     | None => []
                     end) indices.

(** The gate called on a list of identities one after the other: the
    answers and the tracker file at the end. *)
Fixpoint run_gate (tracker_file : option str) (ids : list str)
  : list bool * option str :=
  match ids with
  | [] => ([], tracker_file)
  | t :: ids' =>
      let '(permit, tracker') := should_send_notification tracker_file t in
      let '(answers, final) := run_gate tracker' ids' in
      (permit :: answers, final)
  end.

(** Equality of sort keys. *)
Definition key_eqb (a b : bool * datetime) : bool :=
  Bool.eqb (fst a) (fst b) && dt_eqb (snd a) (snd b).

(** The ranges a [datetime] object keeps its fields in. *)
Definition valid_datetime (d : datetime) : Prop :=
  (1 <= year d <= 9999 /\ 1 <= month d <= 12
   /\ 1 <= day d <= days_in_month (year d) (month d)
   /\ 0 <= hour d <= 23 /\ 0 <= minute d <= 59
   /\ 0 <= second d <= 59 /\ 0 <= microsecond d <= 999999)%Z.

(** The number of sends that a list of answers of the gate permits. *)
Definition permitted (answers : list bool) : nat :=
  count_occ Bool.bool_dec answers true.

(** ** Scheduling lines as the planner writes them *)

(** [YYYY-MM-DD] *)
Definition ymd (y m d : Z) : str :=
  pad4 y ++ lit "-" ++ pad2 m ++ lit "-" ++ pad2 d.

(** [SCHEDULED: <YYYY-MM-DD Www HH:MM>] *)
Definition scheduled_line (y m d : Z) (weekday : str) (h mi : Z) : str :=
  lit "SCHEDULED: <" ++ ymd y m d ++ lit " " ++ weekday ++ lit " "
  ++ pad2 h ++ lit ":" ++ pad2 mi ++ lit ">".

(** [SCHEDULED: <YYYY-MM-DD Www>] *)
Definition scheduled_day_line (y m d : Z) (weekday : str) : str :=
  lit "SCHEDULED: <" ++ ymd y m d ++ lit " " ++ weekday ++ lit ">".

(** A text without a colon. *)
Definition no_colon (s : str) : bool :=
  forallb (fun c => negb (Ascii.eqb ":"%char c)) s.

(** ** Paths and the path settings *)

Definition sep : ascii := "/"%char.

(** The last character of [s] is [c]. *)
Definition endswith_char (c : ascii) (s : str) : bool :=
  match rev s with
  | x :: _ => Ascii.eqb x c
  | [] => false
  end.

(** One step of [os.path.join] (POSIX): an absolute part replaces what is
    there; otherwise it is appended, after a separator unless the path is
    empty or ends with one. *)
Definition join_step (path b : str) : str :=
  match b with
  | c :: _ =>
      if Ascii.eqb c sep then b
      else match path with
           | [] => b
           | _ => if endswith_char sep path then path ++ b
                  else path ++ sep :: b
           end
  | [] =>
      match path with
      | [] => []
      | _ => if endswith_char sep path then path else path ++ [sep]
      end
  end.

(** [os.path.join(a, *parts)] *)
Definition path_join (a : str) (parts : list str) : str :=
  fold_left join_step parts a.

(** [str(n)] for a natural number. *)
Definition str_of_nat (n : nat) : str :=
  lit (DecimalString.NilZero.string_of_uint (Nat.to_uint n)).

(** The path that [write_task_file] opens:
    [os.path.join(output_dir, f"pushWidget{index}.txt")]. *)
Definition widget_file_path (output_dir : str) (index : nat) : str :=
  path_join output_dir [lit "pushWidget" ++ str_of_nat index ++ lit ".txt"].

(** [c.lower()] on one character (code points below 256): the letters A..Z
    and the capital letters of the range C0..DE other than the
    multiplication sign. *)
Definition lower_char (c : ascii) : ascii :=
  let n := nat_of_ascii c in
  if ((65 <=? n) && (n <=? 90))
     || ((192 <=? n) && (n <=? 222) && negb (n =? 215))
  then ascii_of_nat (n + 32) else c.

(** [s.lower()] *)
Definition lower (s : str) : str := map lower_char s.

(** The path settings of one profile: a dict from setting names to path
    strings, in insertion order. *)
Definition dict := list (str * str).

(** [d[k]], [None] standing for [KeyError]. *)
Fixpoint dict_get (k : str) (d : dict) : option str :=
  match d with
  | [] => None
  | (k', v) :: d' => if str_eqb k' k then Some v else dict_get k d'
  end.

(** [d[k] = v]: an existing key keeps its place, a new one goes to the
    end. *)
Fixpoint dict_set (k v : str) (d : dict) : dict :=
  match d with
  | [] => [(k, v)]
  | (k', v') :: d' =>
      if str_eqb k' k then (k, v) :: d' else (k', v') :: dict_set k v d'
  end.

(** Exceptions of the set-up phase. *)
Inductive setup_exn := NoneTypeError | KeyError | EOFError.

Inductive outcome (A : Type) : Type :=
| Returns (a : A)
| Fails (e : setup_exn).

Arguments Returns {A} a.
Arguments Fails {A} e.

(** [get_user_choice] inside [prompt_for_paths], reading its answers from
    the lines of standard input ([input] fails with [EOFError] when there
    is none left).  Each answer that is none of [y], the empty answer and
    [n] nests one more call; the interpreter's limit on nested calls is
    outside the model. *)
Fixpoint get_user_choice (sync_logseq_path default_output_dir : str)
  (stdin : list str) : outcome (str * str) * list str :=
  match stdin with
  | [] => (Fails EOFError, [])
  | answer :: rest =>
      let choice := lower (strip answer) in
      if str_eqb choice (lit "y") || str_eqb choice []
      then (Returns (sync_logseq_path, default_output_dir), rest)
      else if str_eqb choice (lit "n")
      then match rest with
           | custom_markdown :: custom_output_dir :: rest' =>
               (Returns (strip custom_markdown, strip custom_output_dir),
                rest')
           | _ => (Fails EOFError, [])
           end
      else get_user_choice sync_logseq_path default_output_dir rest
  end.

(** [prompt_for_paths(paths)] with [os.getenv('HOME')] and the lines of
    standard input; returns the dict as the call leaves it and the input
    not yet read.  Every exception is raised before the dict is
    changed. *)
Definition prompt_for_paths (home_dir : option str) (paths : dict)
  (stdin : list str) : outcome dict * list str :=
  match home_dir with
  | None => (Fails NoneTypeError, stdin)
  | Some home =>
      let sync_logseq_path :=
        path_join home [lit "Sync"; lit "Logseq"; lit "pages";
                        lit "Logpush.md"] in
      let default_output_dir :=
        path_join home [lit "Sync"; lit "Logseq"; lit "assets";
                        lit "logpush"] in
      match dict_get (lit "markdown") paths with
      | None => (Fails KeyError, stdin)
      | Some markdown =>
          let chosen :=
            match markdown with
            | [] =>
                match get_user_choice sync_logseq_path default_output_dir
                        stdin with
                | (Returns (md, od), stdin') =>
                    (Returns (dict_set (lit "output_dir") od
                                (dict_set (lit "markdown") md paths)),
                     stdin')
                | (Fails e, stdin') => (Fails e, stdin')
                end
            | _ => (Returns paths, stdin)
            end in
          match chosen with
          | (Returns paths1, stdin1) =>
              match dict_get (lit "output_dir") paths1 with
              | None => (Fails KeyError, stdin1)
              | Some output_dir =>
                  (Returns
                     (dict_set (lit "notification_tracker")
                        (path_join output_dir
                           [lit "notification_tracker.txt"])
                        (dict_set (lit "pushWidget_target")
                           (path_join output_dir [lit "pushWidget"])
                           paths1)),
                   stdin1)
              end
          | (Fails e, stdin1) => (Fails e, stdin1)
          end
      end
  end.

(** What [os.path.join] puts in front of a relative part. *)
Definition join_lead (path : str) : str :=
  match path with
  | [] => []
  | _ => if endswith_char sep path then path else path ++ [sep]
  end.

(** The settings that [main] installs when the configuration has no
    ['paths'] or no ['default'] profile. *)
Definition main_fallback_paths : dict :=
  [(lit "markdown", []); (lit "output_dir", []);
   (lit "pushwidget_target", []); (lit "notification_tracker", [])].

(** [all(paths.values())] on path strings: no value is empty. *)
Definition all_values (d : dict) : bool :=
  forallb (fun kv => match snd kv with [] => false | _ => true end) d.

(** * Basic facts on strings *)

Lemma str_eqb_eq (a b : str) : str_eqb a b = true <-> a = b.
Proof.
  revert b; induction a as [|x a IH]; intros [|y b]; simpl;
    try (split; [discriminate | discriminate]); [tauto|].
  rewrite andb_true_iff, Ascii.eqb_eq, IH.
  split; [intros [-> ->]; reflexivity | intros H; inversion H; auto].
Qed.

Lemma str_eqb_refl (a : str) : str_eqb a a = true.
Proof. apply str_eqb_eq; reflexivity. Qed.

Lemma lstrip_suffix (s : str) :
  exists pre, s = pre ++ lstrip s /\ forallb isspace pre = true.
Proof.
  induction s as [|c s [pre [E F]]]; simpl.
  - exists []; auto.
  - destruct (isspace c) eqn:Hc.
    + exists (c :: pre); simpl; rewrite Hc, F; split; [f_equal; exact E | reflexivity].
    + exists []; auto.
Qed.

Lemma lstrip_head (s : str) c t : lstrip s = c :: t -> isspace c = false.
Proof.
  induction s as [|x s IH]; simpl; [discriminate|].
  destruct (isspace x) eqn:Hx; [exact IH|].
  intros E; inversion E; subst; exact Hx.
Qed.

Lemma rstrip_prefix (s : str) :
  exists suf, s = rstrip s ++ suf /\ forallb isspace suf = true.
Proof.
  induction s as [|c s [suf [E F]]]; simpl.
  - exists []; auto.
  - destruct (rstrip s) as [|y t] eqn:R.
    + destruct (isspace c) eqn:Hc.
      * exists (c :: suf); simpl in *; rewrite Hc, F; split; [f_equal; exact E | reflexivity].
      * exists suf; simpl in *; split; [f_equal; exact E | exact F].
    + exists suf; split; [simpl; f_equal; exact E | exact F].
Qed.

Lemma length_lstrip (s : str) : length (lstrip s) <= length s.
Proof.
  destruct (lstrip_suffix s) as [pre [E _]].
  rewrite E at 2; rewrite length_app; lia.
Qed.

Lemma length_rstrip (s : str) : length (rstrip s) <= length s.
Proof.
  destruct (rstrip_prefix s) as [suf [E _]].
  rewrite E at 2; rewrite length_app; lia.
Qed.

Lemma length_strip (s : str) : length (strip s) <= length s.
Proof.
  unfold strip. pose proof (length_rstrip (lstrip s)). pose proof (length_lstrip s). lia.
Qed.

Lemma length_slice_to (s : str) (n : Z) :
  (0 <= n)%Z -> (len (slice_to s n) <= n)%Z.
Proof.
  intros Hn; unfold slice_to, len.
  destruct (n <? 0)%Z eqn:E; [apply Z.ltb_lt in E; lia|].
  rewrite length_firstn; lia.
Qed.

Lemma length_slice_to_le (s : str) (n : Z) : length (slice_to s n) <= length s.
Proof.
  unfold slice_to; destruct (n <? 0)%Z; rewrite length_firstn; lia.
Qed.

Lemma slice_to_drop_last (s : str) :
  s <> [] -> length (slice_to s (len s - 1)) = length s - 1.
Proof.
  intros Hs; unfold slice_to, len.
  destruct s as [|c s]; [congruence|].
  destruct (Z.of_nat (length (c :: s)) - 1 <? 0)%Z eqn:E.
  - apply Z.ltb_lt in E; simpl length in E; lia.
  - rewrite length_firstn; simpl length; lia.
Qed.


(** * Truncation *)

Section Truncation.

Variable desc : str.
Variable L : Z.

(** The backward search stays inside the description, stops at the last
    space among the positions it visits, and reports 0 when there is none
    at the positions [1..e]. *)
Lemma find_space_spec (e : nat) :
  e < length desc ->
  exists k, find_space desc e = Ret k /\ k <= e
            /\ (k = 0 \/ nth_error desc k = Some space)
            /\ (forall j, k < j <= e -> nth_error desc j <> Some space).
Proof.
  induction e as [|e IH]; intros He; cbn [find_space].
  - exists 0; split; [reflexivity|]; split; [lia|]; split; [auto|].
    intros j Hj; lia.
  - destruct (nth_error desc (S e)) as [c|] eqn:Hn.
    + destruct (Ascii.eqb c space) eqn:Hc.
      * apply Ascii.eqb_eq in Hc; subst c.
        exists (S e).
        split; [reflexivity|]; split; [lia|]; split; [auto|].
        intros j Hj; lia.
      * destruct IH as [k [Hk [Hle [Hat Hno]]]]; [lia|].
        exists k; split; [exact Hk|]; split; [lia|]; split; [exact Hat|].
        intros j Hj.
        destruct (Nat.eq_dec j (S e)) as [->|Hne].
        -- rewrite Hn; intros E; inversion E; subst.
           rewrite Ascii.eqb_refl in Hc; discriminate.
        -- apply Hno; lia.
    + apply nth_error_None in Hn; lia.
Qed.


Hypothesis L_fits_ellipsis : (3 <= L)%Z.

(** With a limit of 3 or more the dropping loop exits after at most
    [length t + 1] tests of its condition, on a text that leaves room for
    the ['...']; a text that already fits is left as it is. *)
Lemma drop_until_fits_enough (fuel : nat) (t : str) :
  length t < fuel ->
  exists r, drop_until_fits fuel t L = Ret r
            /\ (len r + 3 <= L)%Z
            /\ ((len t + 3 <= L)%Z -> r = t).
Proof.
  revert t; induction fuel as [|fuel IH]; intros t Hf; [lia|].
  simpl.
  destruct (len t + 3 >? L)%Z eqn:E.
  - apply Z.gtb_lt in E.
    assert (Ht : t <> []) by (intros ->; unfold len in E; simpl in E; lia).
    destruct (IH (strip (slice_to t (len t - 1)))) as [r [Hr [Hfit _]]].
    + pose proof (length_strip (slice_to t (len t - 1))).
      rewrite slice_to_drop_last in H by exact Ht.
      destruct t; [congruence | simpl in *; lia].
    + exists r; split; [exact Hr|]; split; [exact Hfit|]; intros; lia.
  - exists t; split; [reflexivity|].
    destruct (Z.gtb_spec (len t + 3) L); [discriminate|].
    split; [lia | reflexivity].
Qed.

Lemma len_app_ellipsis (t : str) : len (t ++ ellipsis) = (len t + 3)%Z.
Proof. unfold len; rewrite length_app; simpl; lia. Qed.

(** On a limit of 3 or more the truncation returns, its result fits the
    limit, and a description longer than the limit comes back with the
    ['...'] at its end. *)
Lemma truncate_returns (fuel : nat) :
  length desc < fuel ->
  exists r, truncate_task_description fuel desc L = Ret r
            /\ (len r <= L)%Z
            /\ ((L < len desc)%Z -> exists kept, r = kept ++ ellipsis).
Proof.
  intros Hf; unfold truncate_task_description.
  destruct (len desc <=? L)%Z eqn:E.
  - apply Z.leb_le in E.
    exists desc; split; [reflexivity|]; split; [exact E | intros; lia].
  - apply Z.leb_gt in E.
    assert (H0 : (0 <? L)%Z = true) by (apply Z.ltb_lt; lia).
    rewrite H0.
    destruct (@find_space_spec (Z.to_nat L)) as [k [Hk [Hle _]]];
      [unfold len in E; lia|].
    rewrite Hk; simpl.
    destruct (Z.of_nat k =? 0)%Z eqn:Ek.
    + eexists; split; [reflexivity|]; split; [|intros _; eexists; reflexivity].
      rewrite len_app_ellipsis.
      pose proof (length_strip (slice_to desc (L - 3))).
      pose proof (@length_slice_to desc (L - 3)); unfold len in *; lia.
    + destruct (@drop_until_fits_enough fuel (strip (slice_to desc (Z.of_nat k))))
        as [r [Hr [Hfit _]]].
      * pose proof (length_strip (slice_to desc (Z.of_nat k))).
        pose proof (length_slice_to_le desc (Z.of_nat k)); lia.
      * rewrite Hr; simpl.
        eexists; split; [reflexivity|]; split; [|intros _; eexists; reflexivity].
        rewrite len_app_ellipsis; lia.
Qed.


End Truncation.



(** Below a limit of 3 the condition [len(truncated) + 3 > trunc_length] of
    the dropping loop holds for every text, the empty one included: the
    loop has no exit. *)
Lemma drop_until_fits_below_3 (L : Z) (fuel : nat) (t : str) :
  (L < 3)%Z -> drop_until_fits fuel t L = NoFuel.
Proof.
  intros HL; revert t; induction fuel as [|fuel IH]; intros t; simpl; auto.
  destruct (Z.gtb_spec (len t + 3) L) as [_|H]; [apply IH|].
  unfold len in H; lia.
Qed.




(** C10: the claim is that truncation terminates for every description and
    every limit.  The code does not: at limit 1 the description ["a bc"]
    is cut at its space to ["a"], which is dropped to the empty text, and
    the loop condition [0 + 3 > 1] then holds forever; no number of
    iterations yields a result. *)
Theorem C10_truncate_diverges_at_limit_1 (fuel : nat) :
  truncate_task_description fuel (lit "a bc") 1 = NoFuel.
Proof.
  unfold truncate_task_description.
  change (len (lit "a bc") <=? 1)%Z with false.
  change (0 <? 1)%Z with true.
  cbv iota.
  change (find_space (lit "a bc") (Z.to_nat 1)) with (@Ret nat 1).
  cbn [bind].
  change (Z.of_nat 1 =? 0)%Z with false. cbv iota.
  rewrite drop_until_fits_below_3 by lia.
  reflexivity.
Qed.

(** * Dated rendering *)

Lemma length_spaces (n : Z) : length (spaces n) = Z.to_nat n.
Proof. unfold spaces; apply repeat_length. Qed.

Lemma len_app (a b : str) : len (a ++ b) = (len a + len b)%Z.
Proof. unfold len; rewrite length_app; lia. Qed.

Lemma pad_length (description formatted_date : str) (total : Z) :
  (len description <= total - (len formatted_date + 3))%Z ->
  len (pad_task_description_with_date description formatted_date total) = total.
Proof.
  intros H; unfold pad_task_description_with_date.
  rewrite !len_app. unfold len at 2; rewrite length_spaces.
  change (len (lit " (")) with 2%Z; change (len (lit ")")) with 1%Z.
  unfold len in *; lia.
Qed.

(** C6: for every description no longer than the computed truncation
    length (total_length minus the length of the date and its [' ()']
    framing) and every formatted date, the dated rendering is the
    description, then padding spaces, then [' ('], the date and [')'], and
    its length is exactly total_length = 40. *)
Theorem C6_dated_rendering_is_total_length (description formatted_date : str) :
  (len description <= total_length - (len formatted_date + 3))%Z ->
  pad_task_description_with_date description formatted_date total_length
  = description
    ++ spaces (total_length - len description - len formatted_date - 3)
    ++ lit " (" ++ formatted_date ++ lit ")"
  /\ len (pad_task_description_with_date description formatted_date
            total_length) = 40%Z.
Proof.
  intros H; split.
  - unfold pad_task_description_with_date; rewrite <- app_assoc; reflexivity.
  - apply pad_length; exact H.
Qed.

Lemma C6_dated_rendering_witness :
  pad_task_description_with_date (lit "pay rent") (lit "5/6/24") total_length
  = lit "pay rent"
    ++ spaces (total_length - len (lit "pay rent") - len (lit "5/6/24") - 3)
    ++ lit " (" ++ lit "5/6/24" ++ lit ")"
  /\ len (pad_task_description_with_date (lit "pay rent") (lit "5/6/24")
            total_length) = 40%Z.
Proof.
  apply (@C6_dated_rendering_is_total_length (lit "pay rent") (lit "5/6/24")).
  vm_compute; discriminate.
Defined.

(** * The notification gate *)

Lemma digit_char_not_space (n : Z) : isspace (digit_char n) = false.
Proof.
  unfold digit_char.
  assert (H : Z.to_nat (n mod 10) < 10)
    by (pose proof (Z.mod_pos_bound n 10); lia).
  remember (Z.to_nat (n mod 10)) as k eqn:Hk; clear Hk.
  do 10 (destruct k as [|k]; [reflexivity|]).
  lia.
Qed.

Lemma lstrip_cons (c : ascii) (s : str) :
  isspace c = false -> lstrip (c :: s) = c :: s.
Proof. intros H; simpl; rewrite H; reflexivity. Qed.

Lemma rstrip_snoc (s : str) (c : ascii) :
  isspace c = false -> rstrip (s ++ [c]) = s ++ [c].
Proof.
  intros H; induction s as [|x s IH]; simpl.
  - rewrite H; reflexivity.
  - rewrite IH. destruct (s ++ [c]) eqn:E; [|reflexivity].
    destruct s; discriminate.
Qed.

(** A text that begins and ends with characters other than whitespace is
    left alone by [strip]. *)
Lemma strip_fixed (c0 c1 : ascii) (mid : str) :
  isspace c0 = false -> isspace c1 = false ->
  strip (c0 :: mid ++ [c1]) = c0 :: mid ++ [c1].
Proof.
  intros H0 H1; unfold strip.
  rewrite lstrip_cons by exact H0.
  exact (@rstrip_snoc (c0 :: mid) c1 H1).
Qed.

(** An ISO timestamp begins and ends with a digit. *)
Lemma strip_isoformat (d : datetime) : strip (isoformat d) = isoformat d.
Proof.
  unfold isoformat, pad4, pad2, pad6.
  destruct (microsecond d =? 0)%Z; cbn [lit list_ascii_of_string app].
  - match goal with
    | |- strip (?c0 :: ?rest) = _ =>
        change (c0 :: rest)
          with (c0 :: removelast rest ++ [digit_char (second d)])
    end.
    apply strip_fixed; apply digit_char_not_space.
  - match goal with
    | |- strip (?c0 :: ?rest) = _ =>
        change (c0 :: rest)
          with (c0 :: removelast rest ++ [digit_char (microsecond d)])
    end.
    apply strip_fixed; apply digit_char_not_space.
Qed.

Section Gate.

Variable tracker_file : option str.

(** A call with the identity that the tracker already holds suppresses
    and leaves the tracker as it is. *)
Lemma gate_suppresses (t : str) :
  option_map strip tracker_file = Some t ->
  should_send_notification tracker_file t = (false, tracker_file).
Proof.
  destruct tracker_file as [content|]; simpl; [|discriminate].
  intros E; inversion E; rewrite str_eqb_refl; reflexivity.
Qed.

(** A call with any other identity writes it and permits the send. *)
Lemma gate_permits (t : str) :
  option_map strip tracker_file <> Some t ->
  should_send_notification tracker_file t = (true, Some t).
Proof.
  destruct tracker_file as [content|]; simpl; [|reflexivity].
  intros N. destruct (str_eqb (strip content) t) eqn:E; [|reflexivity].
  apply str_eqb_eq in E; congruence.
Qed.

(** After a call with a stripped identity the tracker holds it. *)
Lemma gate_stores (t : str) :
  strip t = t ->
  option_map strip (snd (should_send_notification tracker_file t)) = Some t.
Proof.
  intros Ht.
  destruct tracker_file as [content|]; simpl; [|rewrite Ht; reflexivity].
  destruct (str_eqb (strip content) t) eqn:E; simpl.
  - apply str_eqb_eq in E; rewrite E; reflexivity.
  - rewrite Ht; reflexivity.
Qed.

End Gate.

(** C4: for every timestamp identity (the ISO form of a due time) and every
    tracker state, the second of two successive calls of the gate with
    that identity suppresses and leaves the tracker file unchanged, so at
    most one of the two permits a send; and a call with an identity other
    than the one the tracker holds overwrites the tracker with the new
    identity and permits a send. *)
Theorem C4_gate_idempotent_and_overwrites (tracker_file : option str)
  (d : datetime) :
  let first := should_send_notification tracker_file (isoformat d) in
  let second := should_send_notification (snd first) (isoformat d) in
  fst second = false
  /\ snd second = snd first
  /\ (forall new_identity,
         option_map strip tracker_file <> Some new_identity ->
         should_send_notification tracker_file new_identity
         = (true, Some new_identity)).
Proof.
  intros first second.
  assert (E : second = (false, snd first)).
  { apply gate_suppresses, gate_stores, strip_isoformat. }
  rewrite E; split; [reflexivity|]; split; [reflexivity|].
  intros new_identity; apply gate_permits.
Qed.

Lemma C4_gate_witness :
  should_send_notification (Some (lit "2024-05-06T10:02:00"))
    (lit "2024-05-07T09:00:00")
  = (true, Some (lit "2024-05-07T09:00:00")).
Proof.
  apply (proj2 (proj2 (C4_gate_idempotent_and_overwrites
                         (Some (lit "2024-05-06T10:02:00"))
                         (mkdt 2024 5 6 10 2 0 0)))).
  vm_compute; discriminate.
Defined.

(** * The order on sort keys *)

Lemma lex_ltb_irrefl (a : list Z) : lex_ltb a a = false.
Proof.
  induction a as [|x a IH]; simpl; [reflexivity|].
  rewrite Z.eqb_refl; exact IH.
Qed.

Lemma lex_eqb_eq (a b : list Z) : lex_eqb a b = true <-> a = b.
Proof.
  revert b; induction a as [|x a IH]; intros [|y b]; simpl;
    try (split; discriminate); [tauto|].
  rewrite andb_true_iff, Z.eqb_eq, IH.
  split; [intros [-> ->]; reflexivity | intros H; inversion H; auto].
Qed.

Lemma lex_ltb_trans (a b c : list Z) :
  lex_ltb a b = true -> lex_ltb b c = true -> lex_ltb a c = true.
Proof.
  revert b c; induction a as [|x a IH]; intros [|y b] [|z c]; simpl;
    try discriminate; auto.
  destruct (Z.eqb_spec x y), (Z.eqb_spec y z), (Z.eqb_spec x z);
    rewrite ?Z.ltb_lt; first [ solve [eauto] | solve [intros; lia] ].
Qed.

Lemma lex_ltb_total (a b : list Z) :
  length a = length b ->
  lex_ltb a b = false -> lex_ltb b a = false -> a = b.
Proof.
  revert b; induction a as [|x a IH]; intros [|y b]; simpl;
    try discriminate; auto.
  intros Hl; injection Hl as Hl.
  rewrite (Z.eqb_sym y x).
  destruct (Z.eqb_spec x y) as [->|Hxy].
  - intros H1 H2; f_equal; apply IH; auto.
  - rewrite !Z.ltb_ge; intros; lia.
Qed.

Lemma lex_leb_trans (a b c : list Z) :
  length a = length b -> length b = length c ->
  lex_leb a b = true -> lex_leb b c = true -> lex_leb a c = true.
Proof.
  unfold lex_leb; rewrite !negb_true_iff; intros Hab Hbc H1 H2.
  destruct (lex_ltb c a) eqn:Hca; [exfalso|reflexivity].
  destruct (lex_ltb a b) eqn:E1.
  - rewrite (lex_ltb_trans _ _ _ Hca E1) in H2; discriminate.
  - assert (a = b) by (apply lex_ltb_total; auto). subst b.
    congruence.
Qed.

Lemma key_ltb_lex (a b : bool * datetime) :
  key_ltb a b = lex_ltb (key_fields a) (key_fields b).
Proof.
  assert (same : forall da db,
             (if dt_eqb da db then false else dt_ltb da db)
             = lex_ltb (dt_fields da) (dt_fields db)).
  { intros da db; unfold dt_eqb, dt_ltb.
    destruct (lex_eqb (dt_fields da) (dt_fields db)) eqn:E; [|reflexivity].
    apply lex_eqb_eq in E; rewrite E, lex_ltb_irrefl; reflexivity. }
  destruct a as [fa da], b as [fb db]; unfold key_ltb, key_fields.
  destruct fa, fb; cbn -[dt_fields dt_eqb dt_ltb]; auto.
Qed.

Lemma length_key_fields (k : bool * datetime) : length (key_fields k) = 8.
Proof. reflexivity. Qed.

Lemma task_le_lex (x y : task) :
  task_le x y <->
  lex_leb (key_fields (sort_key x)) (key_fields (sort_key y)) = true.
Proof.
  unfold task_le, lex_leb; rewrite key_ltb_lex, negb_true_iff; tauto.
Qed.

Lemma task_le_trans (x y z : task) : task_le x y -> task_le y z -> task_le x z.
Proof.
  rewrite !task_le_lex; apply lex_leb_trans; reflexivity.
Qed.

Lemma key_ltb_asym (a b : bool * datetime) :
  key_ltb a b = true -> key_ltb b a = false.
Proof.
  rewrite !key_ltb_lex; intros H.
  destruct (lex_ltb (key_fields b) (key_fields a)) eqn:E; [|reflexivity].
  pose proof (lex_ltb_trans _ _ _ H E) as C.
  rewrite lex_ltb_irrefl in C; discriminate.
Qed.

(** * The sort *)

Lemma insert_task_perm (x : task) (l : list task) :
  Permutation (x :: l) (insert_task x l).
Proof.
  induction l as [|y l IH]; simpl; [reflexivity|].
  destruct (key_ltb (sort_key y) (sort_key x)); [|reflexivity].
  rewrite perm_swap; constructor; exact IH.
Qed.

Lemma sort_tasks_perm (l : list task) : Permutation l (sort_tasks l).
Proof.
  induction l as [|x l IH]; simpl; [constructor|].
  rewrite <- insert_task_perm; constructor; exact IH.
Qed.

Lemma insert_task_sorted (x : task) (l : list task) :
  Sorted task_le l -> Sorted task_le (insert_task x l).
Proof.
  induction 1 as [|y l Hs IH Hd]; simpl; [repeat constructor|].
  destruct (key_ltb (sort_key y) (sort_key x)) eqn:E.
  - constructor; [exact IH|].
    destruct Hd as [|z l' Hz]; simpl.
    + constructor; apply key_ltb_asym; exact E.
    + destruct (key_ltb (sort_key z) (sort_key x)); constructor;
        [exact Hz | apply key_ltb_asym; exact E].
  - constructor; [constructor; assumption|].
    constructor; exact E.
Qed.

Lemma sort_tasks_sorted (l : list task) : StronglySorted task_le (sort_tasks l).
Proof.
  apply Sorted_StronglySorted; [exact task_le_trans|].
  induction l as [|x l IH]; simpl; [constructor|].
  apply insert_task_sorted; exact IH.
Qed.

Lemma StronglySorted_nth (A : Type) (R : A -> A -> Prop) (l : list A) :
  StronglySorted R l ->
  forall i j x y, i < j -> nth_error l i = Some x -> nth_error l j = Some y ->
                  R x y.
Proof.
  induction 1 as [|a l Hs IH Ha]; intros i j x y Hij Hi Hj.
  - destruct i; discriminate.
  - destruct j as [|j]; [lia|]. simpl in Hj.
    destruct i as [|i]; simpl in Hi.
    + inversion Hi; subst a.
      rewrite Forall_forall in Ha; apply Ha.
      eapply nth_error_In; exact Hj.
    + apply (IH i j); auto; lia.
Qed.

(** What the key order says about two tasks. *)
Lemma task_le_dated (x y : task) :
  task_le x y ->
  (snd y <> None -> snd x <> None)
  /\ (forall a b, snd x = Some a -> snd y = Some b -> dt_leb a b = true).
Proof.
  unfold task_le, sort_key; destruct x as [dx [a|]], y as [dy [b|]];
    simpl snd; intros H; split;
    try solve [intros; congruence];
    try solve [unfold key_ltb in H; simpl in H; discriminate H].
  intros a' b' Ea Eb; inversion Ea; inversion Eb; subst a' b'.
  unfold key_ltb in H; cbn [fst snd Bool.eqb] in H.
  unfold dt_leb.
  destruct (dt_eqb b a) eqn:E.
  - apply lex_eqb_eq in E.
    assert (E' : dt_eqb a b = true) by (apply lex_eqb_eq; congruence).
    rewrite E'; apply orb_true_r.
  - unfold dt_ltb in *.
    destruct (lex_ltb (dt_fields a) (dt_fields b)) eqn:Lt; [reflexivity|].
    assert (dt_fields a = dt_fields b) by (apply lex_ltb_total; auto).
    unfold dt_eqb in E; rewrite (proj2 (lex_eqb_eq _ _)) in E by congruence.
    discriminate.
Qed.

(** C2: for every parsed task list, in the sorted list (a rearrangement of
    the parsed one) every task with a due timestamp precedes every task
    without one, and the due timestamps of the dated tasks are in
    non-decreasing order. *)
Theorem C2_sort_dated_first_nondecreasing (tasks : list task) :
  Permutation tasks (sort_tasks tasks)
  /\ forall i j x y,
      i < j ->
      nth_error (sort_tasks tasks) i = Some x ->
      nth_error (sort_tasks tasks) j = Some y ->
      (snd y <> None -> snd x <> None)
      /\ (forall a b, snd x = Some a -> snd y = Some b -> dt_leb a b = true).
Proof.
  split; [apply sort_tasks_perm|].
  intros i j x y Hij Hi Hj.
  apply task_le_dated.
  exact (StronglySorted_nth (sort_tasks_sorted tasks) Hij Hi Hj).
Qed.

Lemma C2_sort_witness :
  (snd (Some (lit "b"), Some (mkdt 2024 5 7 0 0 0 0)) <> None ->
   snd (Some (lit "c"), Some (mkdt 2024 5 6 10 2 0 0)) <> None)
  /\ (forall a b,
         snd (Some (lit "c"), Some (mkdt 2024 5 6 10 2 0 0)) = Some a ->
         snd (Some (lit "b"), Some (mkdt 2024 5 7 0 0 0 0)) = Some b ->
         dt_leb a b = true).
Proof.
  apply (proj2 (C2_sort_dated_first_nondecreasing
                  [(Some (lit "a"), None);
                   (Some (lit "b"), Some (mkdt 2024 5 7 0 0 0 0));
                   (Some (lit "c"), Some (mkdt 2024 5 6 10 2 0 0))]) 0 1).
  - lia.
  - reflexivity.
  - reflexivity.
Defined.

(** * Extraction of the date and the time *)

Lemma candidates_cons (w : nat) (c : ascii) (line : str) :
  candidates w (c :: line) = firstn w (c :: line) :: candidates w line.
Proof.
  unfold candidates. cbn [length seq map skipn]. f_equal.
  rewrite <- seq_shift, map_map. reflexivity.
Qed.

(** [first_token] returns the substring at the least position whose
    substring has the shape. *)
Lemma first_token_spec (w : nat) (shape : str -> bool) (line tok : str) :
  first_token w shape line = Some tok ->
  exists p, p <= length line
            /\ tok = firstn w (skipn p line)
            /\ shape tok = true
            /\ forall q, q < p -> shape (firstn w (skipn q line)) = false.
Proof.
  unfold first_token; revert tok; induction line as [|c line IH]; intros tok.
  - cbn [candidates length seq map skipn find].
    destruct (shape (firstn w [])) eqn:E; [|discriminate].
    intros H; inversion H; subst tok.
    exists 0; split; [lia|]; split; [reflexivity|]; split; [exact E|].
    intros q Hq; lia.
  - rewrite candidates_cons; cbn [find].
    destruct (shape (firstn w (c :: line))) eqn:E.
    + intros H; inversion H; subst tok.
      exists 0; split; [lia|]; split; [reflexivity|]; split; [exact E|].
      intros q Hq; lia.
    + intros H; destruct (IH tok H) as [p [Hp [Ht [Hs Hmin]]]].
      exists (S p); split; [simpl; lia|]; split; [exact Ht|];
        split; [exact Hs|].
      intros [|q] Hq; [exact E | apply Hmin; lia].
Qed.

(** Whether a fixed-width pattern matches depends on as many characters as
    the pattern has, and needs that many. *)
Lemma re_match_firstn (p : pattern) (s : str) :
  re_match p s
  = (length (firstn (length p) s) =? length p)
    && re_match p (firstn (length p) s).
Proof.
  revert s; induction p as [|f p IH]; intros [|c s]; simpl; auto.
  rewrite (IH s). destruct (f c); simpl; [reflexivity|].
  rewrite andb_false_r; reflexivity.
Qed.

Lemma re_match_chars_app (lead : str) (q : pattern) (s : str) :
  re_match (map Ascii.eqb lead ++ q) s
  = startswith lead s && re_match q (skipn (length lead) s).
Proof.
  revert s; induction lead as [|a lead IH]; intros s; simpl; [reflexivity|].
  destruct s as [|c s]; [reflexivity|].
  rewrite IH, andb_assoc; reflexivity.
Qed.

(** Searching a pattern is finding the first substring of its width that
    has the pattern's shape. *)
Lemma re_search_first_token (p : pattern) (shape : str -> bool) :
  (forall t, shape t = (length t =? length p) && re_match p t) ->
  forall line,
    option_map (firstn (length p)) (re_search p line)
    = first_token (length p) shape line.
Proof.
  intros Hshape line; unfold first_token.
  induction line as [|c line IH].
  - cbn [re_search candidates length seq map skipn find].
    rewrite Hshape, <- re_match_firstn.
    destruct (re_match p []); reflexivity.
  - rewrite candidates_cons. cbn [re_search find].
    rewrite Hshape, <- re_match_firstn.
    destruct (re_match p (c :: line)); [reflexivity|exact IH].
Qed.

Ltac by_cases_on_digits :=
  repeat match goal with
         | |- context [is_digit ?c] => destruct (is_digit c)
         end;
  repeat match goal with
         | |- context [Ascii.eqb ?a ?b] => destruct (Ascii.eqb a b)
         end;
  reflexivity.

Lemma date_shaped_pattern (t : str) :
  date_shaped t = (length t =? length date_pattern) && re_match date_pattern t.
Proof.
  do 10 (destruct t as [|? t]; [reflexivity|]).
  destruct t; [|reflexivity].
  unfold date_shaped, date_pattern.
  cbn [length Nat.eqb re_match forallb andb]; by_cases_on_digits.
Qed.

Lemma time_shaped_pattern (t : str) :
  time_shaped t = (length t =? length time_pattern) && re_match time_pattern t.
Proof.
  do 5 (destruct t as [|? t]; [reflexivity|]).
  destruct t; [|reflexivity].
  unfold time_shaped, time_pattern.
  cbn [length Nat.eqb re_match forallb andb]; by_cases_on_digits.
Qed.

Lemma scheduled_date_shaped_pattern (t : str) :
  scheduled_date_shaped t
  = (length t =? length (chars "SCHEDULED: <" ++ date_pattern))
    && re_match (chars "SCHEDULED: <" ++ date_pattern) t.
Proof.
  unfold scheduled_date_shaped, chars.
  rewrite re_match_chars_app, date_shaped_pattern, length_skipn.
  change (length (lit "SCHEDULED: <")) with 12.
  change (length (map Ascii.eqb (lit "SCHEDULED: <") ++ date_pattern)) with 22.
  change (length date_pattern) with 10.
  assert (E : (length t - 12 =? 10) = (length t =? 22)).
  { destruct (Nat.eqb_spec (length t - 12) 10), (Nat.eqb_spec (length t) 22);
      auto; lia. }
  rewrite E.
  destruct (length t =? 22), (startswith (lit "SCHEDULED: <") t);
    reflexivity.
Qed.

(** C8 (amended): for every line, the extracted due date is the
    [YYYY-MM-DD]-shaped token that directly follows the first occurrence of
    ['SCHEDULED: <'] followed by such a token (and none when there is no
    such occurrence), and the extracted time is the first [HH:MM]-shaped
    token appearing anywhere in the line. *)
Theorem C8_scheduled_date_is_anchored_time_is_first (line : str) :
  fst (parse_scheduled_line line)
  = option_map (skipn 12) (first_token 22 scheduled_date_shaped line)
  /\ snd (parse_scheduled_line line) = first_token 5 time_shaped line.
Proof.
  unfold parse_scheduled_line; cbn [fst snd]; split.
  - pose proof (re_search_first_token (chars "SCHEDULED: <" ++ date_pattern)
                  scheduled_date_shaped scheduled_date_shaped_pattern line)
      as H.
    change (length (chars "SCHEDULED: <" ++ date_pattern)) with 22 in H.
    rewrite <- H.
    destruct (re_search (chars "SCHEDULED: <" ++ date_pattern) line) as [m|];
      [|reflexivity].
    cbn [option_map]; f_equal.
    exact (firstn_skipn_comm 10 12 m).
  - exact (re_search_first_token time_pattern time_shaped
             time_shaped_pattern line).
Qed.

(** C8 as the specification words it fails for the date: on a line that
    holds the marker and a date without the ['<'] the code extracts no
    date, and on a line with an earlier date-shaped token the code extracts
    the one after ['SCHEDULED: <'], not the first. *)
Lemma C8_scheduled_date_counterexample :
  (contains scheduled_marker (lit "SCHEDULED: 2024-05-06") = true
   /\ fst (parse_scheduled_line (lit "SCHEDULED: 2024-05-06")) = None
   /\ first_token 10 date_shaped (lit "SCHEDULED: 2024-05-06")
      = Some (lit "2024-05-06"))
  /\ (contains scheduled_marker (lit "2020-01-01 SCHEDULED: <2024-05-06 Mon>")
      = true
      /\ fst (parse_scheduled_line
                (lit "2020-01-01 SCHEDULED: <2024-05-06 Mon>"))
         = Some (lit "2024-05-06")
      /\ first_token 10 date_shaped
           (lit "2020-01-01 SCHEDULED: <2024-05-06 Mon>")
         = Some (lit "2020-01-01")).
Proof. vm_compute; repeat split. Qed.

(** * The task grammar *)

Lemma startswith_app (p s : str) :
  startswith p s = true <-> s = p ++ skipn (length p) s.
Proof.
  revert s; induction p as [|a p IH]; intros s; simpl.
  - split; auto.
  - destruct s as [|b s]; [split; discriminate|].
    rewrite andb_true_iff, Ascii.eqb_eq, IH; simpl.
    split; [intros [-> E]; f_equal; exact E |].
    intros E; injection E as E1 E2; split; [symmetry; exact E1 | exact E2].
Qed.

Lemma dot_plus_no_newline (s : str) :
  ~ In newline s -> dot_plus s = s.
Proof.
  induction s as [|c s IH]; simpl; [reflexivity|]; intros N.
  destruct (Ascii.eqb_spec c newline) as [->|_]; [exfalso; auto|].
  rewrite IH; auto.
Qed.

(** On a line without a newline, [parse_task_line] returns a description
    exactly when the line is the marker ['- TODO '] followed by a non-empty
    text, and the description is that text as it stands. *)
Lemma parse_task_line_spec (line d : str) :
  ~ In newline line ->
  (parse_task_line line = Some d <-> line = lit "- TODO " ++ d /\ d <> []).
Proof.
  intros N; unfold parse_task_line.
  destruct (startswith (lit "- TODO ") line) eqn:S.
  - apply startswith_app in S. change (length (lit "- TODO ")) with 7 in S.
    rewrite dot_plus_no_newline
      by (intros I; apply N; rewrite S; apply in_or_app; right; exact I).
    destruct (skipn 7 line) as [|c r] eqn:K; cbv iota.
    + split; [discriminate|]. intros [E D]; rewrite E in S.
      apply app_inv_head in S; congruence.
    + split.
      * intros E; inversion E; subst d; split; [exact S | discriminate].
      * intros [E D]; rewrite E in S; apply app_inv_head in S.
        subst d; reflexivity.
  - split; [discriminate|]. intros [E _].
    assert (startswith (lit "- TODO ") line = true).
    { apply startswith_app; rewrite E. change (length (lit "- TODO ")) with 7.
      rewrite skipn_app; reflexivity. }
    congruence.
Qed.

Lemma from_marked_line_tail (raw : str) (rest : list str) (t : task) :
  from_marked_line rest t -> from_marked_line (raw :: rest) t.
Proof. intros [r [I H]]; exists r; split; [right; exact I | exact H]. Qed.

Lemma from_marked_line_head (raw : str) (rest : list str)
  (due : option datetime) :
  startswith todo_marker (strip raw) = true ->
  from_marked_line (raw :: rest) (parse_task_line (strip raw), due).
Proof. intros H; exists raw; split; [left; reflexivity | auto]. Qed.

(** Every task that the parsing loop produces comes from a line that,
    stripped, begins with ['- TODO'], and its description is what
    [parse_task_line] returns on that stripped line. *)
Lemma parse_lines_tasks (n : nat) (lines : list str) (tasks : list task) :
  length lines <= n ->
  parse_lines lines = Ret tasks ->
  Forall (from_marked_line lines) tasks.
Proof.
  revert lines tasks; induction n as [|n IH]; intros lines tasks Hn.
  - destruct lines; [|simpl in Hn; lia].
    intros H; inversion H; constructor.
  - destruct lines as [|raw rest]; [intros H; inversion H; constructor|].
    assert (Hrest : forall ts,
               parse_lines rest = Ret ts ->
               Forall (from_marked_line (raw :: rest)) ts).
    { intros ts H. apply IH in H; [|simpl in Hn; lia].
      eapply Forall_impl; [|exact H].
      intros t; apply from_marked_line_tail. }
    cbn [parse_lines].
    destruct (startswith todo_marker (strip raw)) eqn:Htodo; [|apply Hrest].
    pose proof (fun due => @from_marked_line_head raw rest due Htodo) as Hme.
    destruct rest as [|raw_next rest'].
    + intros H; inversion H; constructor; [apply Hme | constructor].
    + destruct (contains scheduled_marker (strip raw_next)).
      * destruct (parse_scheduled_line (strip raw_next)) as [[date|] time].
        -- destruct (match time with
                     | Some t => strptime_date_time date t
                     | None => strptime_date date
                     end) as [dt| |]; cbn [bind]; try discriminate.
           destruct (parse_lines rest') as [ts| |] eqn:P; cbn [bind];
             try discriminate.
           intros H; inversion H; constructor; [apply Hme|].
           apply IH in P; [|simpl in Hn; lia].
           eapply Forall_impl; [|exact P].
           intros t Ht; do 2 apply from_marked_line_tail; exact Ht.
        -- destruct (parse_lines (raw_next :: rest')) as [ts| |] eqn:P;
             cbn [bind]; try discriminate.
           intros H; inversion H; constructor;
             [apply Hme | apply Hrest; reflexivity].
      * destruct (parse_lines (raw_next :: rest')) as [ts| |] eqn:P;
          cbn [bind]; try discriminate.
        intros H; inversion H; constructor;
          [apply Hme | apply Hrest; reflexivity].
Qed.

(** C7: the claim is that a task is produced exactly for a line made of
    ['- TODO '] and a non-empty description, and that every task has a
    non-empty description.  [main] tests the line with
    [startswith('- TODO')], without the space and without a description,
    and does not look at what [parse_task_line] returns: the line
    ['- TODO'] and the line ['- TODOs for next week'] each put a task in
    the list whose description is [None]. *)
Theorem C7_marker_without_description_yields_task :
  parse_task_line (strip (lit "- TODO")) = None
  /\ parse_lines [lit "- TODO"] = Ret [(None, None)]
  /\ parse_task_line (strip (lit "- TODOs for next week")) = None
  /\ parse_lines [lit "- TODOs for next week"] = Ret [(None, None)].
Proof. repeat split. Qed.

(** * Scheduling lines without a usable date *)




(** * The widget files *)

(** C3: the claim is that every run writes the five widget files.  A line
    that begins with ['- TODO'] and carries no description puts a task
    with description [None] in the list (see C7); when the rendering loop
    reaches it, [len] raises [TypeError] and the run ends before the file
    of that slot and of the slots after it are written.  With the single
    line ['- TODO'] no file is written at all. *)
Theorem C3_task_without_description_stops_the_writer
  (now : datetime) (tracker_file : option str) :
  main now [lit "- TODO"] tracker_file
  = (mkworld [] tracker_file, Raise TypeError)
  /\ writes (trace (fst (main now [lit "- TODO"] tracker_file))) = [].
Proof. split; reflexivity. Qed.

Lemma writes_app (a b : list event) : writes (a ++ b) = writes a ++ writes b.
Proof.
  induction a as [|[i c|i t p|t b'] a IH]; simpl; auto. rewrite IH; auto.
Qed.

Lemma gate_slots_app (a b : list event) :
  gate_slots (a ++ b) = gate_slots a ++ gate_slots b.
Proof.
  induction a as [|[i c|i t p|t b'] a IH]; simpl; auto. rewrite IH; auto.
Qed.

Lemma length_unpadded (n : Z) : 1 <= length (unpadded n) <= 2.
Proof. unfold unpadded; destruct (n <? 10)%Z; simpl; lia. Qed.

(** The formatted date [M/D/YY] has 6 to 8 characters. *)
Lemma format_date_len (dt : datetime) : (6 <= len (format_date dt) <= 8)%Z.
Proof.
  unfold format_date, len. rewrite !length_app.
  pose proof (length_unpadded (month dt)); pose proof (length_unpadded (day dt)).
  simpl length; lia.
Qed.

Lemma truncate_call_fits (d : str) (L : Z) :
  (3 <= L)%Z ->
  exists r, truncate_call (Some d) L = Ret r /\ (len r <= L)%Z.
Proof.
  intros HL; unfold truncate_call.
  destruct (@truncate_returns d L HL (S (length d))) as [r [E [Hl _]]];
    [lia|].
  exists r; auto.
Qed.

Lemma ljust_length (s : str) (width : Z) :
  (len s <= width)%Z -> len (ljust s width) = width.
Proof.
  intros H; unfold ljust. rewrite len_app; unfold len in *.
  rewrite length_spaces; lia.
Qed.

(** The notification block writes no widget file, and consults the gate,
    once, exactly when the task is due soon. *)
Lemma notify_trace (now : datetime) (i : nat) (dt : datetime) (display : str)
  (w : world) :
  writes (trace (notify now i dt display w)) = writes (trace w)
  /\ gate_slots (trace (notify now i dt display w))
     = gate_slots (trace w) ++ (if due_soon dt now then [i] else []).
Proof.
  unfold notify. destruct (due_soon dt now); [|rewrite app_nil_r; auto].
  destruct (should_send_notification (tracker w) (isoformat dt)) as [permit t'].
  destruct permit; unfold send_pushbullet_notification, emit; cbn [trace];
    rewrite ?writes_app, ?gate_slots_app; simpl; rewrite ?app_nil_r; auto.
Qed.

Section Rendering.

Variable now : datetime.
Variable tasks : list task.

(** One slot whose task carries a description (or that has no task) is
    rendered without error: exactly one file is written, for that slot,
    with 40 characters, all of them spaces when the slot has no task. *)
Lemma render_slot_ok (i : nat) (w : world) :
  described tasks i ->
  exists w' display,
    render_slot now tasks i w = (w', Ret tt)
    /\ writes (trace w') = writes (trace w) ++ [(i, display)]
    /\ len display = 40%Z
    /\ (nth_error tasks i = None -> display = spaces 40)
    /\ gate_slots (trace w')
       = gate_slots (trace w) ++ (if slot_due_soon now tasks i then [i] else []).
Proof.
  intros Hd; unfold render_slot, slot_due_soon, described in *.
  destruct (nth_error tasks i) as [[[d|] [dt|]]|] eqn:E;
    try (exfalso; eapply Hd; reflexivity).
  - pose proof (format_date_len dt) as Hf.
    destruct (@truncate_call_fits d (total_length - (len (format_date dt) + 3)))
      as [r [Hr Hl]]; [unfold total_length; lia|].
    rewrite Hr.
    destruct (notify_trace now i dt
                (pad_task_description_with_date r (format_date dt) total_length)
                w) as [Hw Hg].
    eexists; eexists; split; [reflexivity|].
    unfold write_task_file, emit; cbn [trace].
    rewrite writes_app, gate_slots_app, Hw, Hg.
    simpl; rewrite app_nil_r.
    split; [reflexivity|]; split; [apply pad_length; exact Hl|].
    split; [discriminate | reflexivity].
  - destruct (@truncate_call_fits d total_length) as [r [Hr Hl]];
      [unfold total_length; lia|].
    rewrite Hr.
    eexists; eexists; split; [reflexivity|].
    unfold write_task_file, emit; cbn [trace].
    rewrite writes_app, gate_slots_app.
    simpl; rewrite !app_nil_r.
    split; [reflexivity|]; split; [apply ljust_length; exact Hl|].
    split; [discriminate | reflexivity].
  - eexists; eexists; split; [reflexivity|].
    unfold write_task_file, emit; cbn [trace].
    rewrite writes_app, gate_slots_app.
    simpl; rewrite !app_nil_r.
    split; [reflexivity|]; split; [reflexivity|].
    split; reflexivity.
Qed.

Lemma for_range_ok (indices : list nat) (w : world) :
  (forall i, In i indices -> described tasks i) ->
  exists w',
    for_range (render_slot now tasks) indices w = (w', Ret tt)
    /\ (exists files,
           writes (trace w') = writes (trace w) ++ files
           /\ map fst files = indices
           /\ Forall (well_rendered tasks) files)
    /\ gate_slots (trace w')
       = gate_slots (trace w) ++ filter (slot_due_soon now tasks) indices.
Proof.
  revert w; induction indices as [|i indices IH]; intros w Hd.
  - exists w; split; [reflexivity|]; split.
    + exists []; rewrite app_nil_r; repeat split; constructor.
    + simpl; rewrite app_nil_r; reflexivity.
  - destruct (@render_slot_ok i w) as [w1 [display [E [Hw [Hl [Hb Hg]]]]]];
      [apply Hd; left; reflexivity|].
    destruct (IH w1) as [w' [E' [[files [Hw' [Hi Hf]]] Hg']]];
      [intros k Hk; apply Hd; right; exact Hk|].
    exists w'; cbn [for_range]; rewrite E; split; [exact E'|]; split.
    + exists ((i, display) :: files).
      rewrite Hw', Hw, <- app_assoc; split; [reflexivity|].
      split; [simpl; rewrite Hi; reflexivity|].
      constructor; [split; assumption | exact Hf].
    + rewrite Hg', Hg, <- app_assoc; f_equal.
      cbn [filter]; destruct (slot_due_soon now tasks i); reflexivity.
Qed.

End Rendering.

(** With a description on each of the first five tasks the run writes the
    five widget files 0..4, each of 40 characters, blank beyond the task
    count. *)
Lemma render_all_writes_every_slot (now : datetime) (tasks : list task)
  (tracker_file : option str) :
  (forall i, i < max_tasks -> described tasks i) ->
  exists w',
    render_all now tasks (mkworld [] tracker_file) = (w', Ret tt)
    /\ map fst (writes (trace w')) = [0; 1; 2; 3; 4]
    /\ Forall (well_rendered tasks) (writes (trace w')).
Proof.
  intros Hd.
  destruct (@for_range_ok now tasks (seq 0 max_tasks) (mkworld [] tracker_file))
    as [w' [E [[files [Hw [Hi Hf]]] _]]].
  - intros i Hi; apply Hd; apply in_seq in Hi; lia.
  - exists w'; split; [exact E|].
    cbn [trace writes app] in Hw; rewrite Hw; split; [exact Hi | exact Hf].
Qed.

(** * The due-soon window *)




(** * Further properties of the truncation *)

Lemma rstrip_idempotent (s : str) : rstrip (rstrip s) = rstrip s.
Proof.
  induction s as [|c s IH]; simpl; [reflexivity|].
  destruct (rstrip s) as [|y t] eqn:R.
  - destruct (isspace c) eqn:Hc; simpl; [reflexivity|].
    rewrite Hc; reflexivity.
  - change (rstrip (c :: y :: t)) with
      (match rstrip (y :: t) with
       | [] => if isspace c then [] else [c]
       | r => c :: r
       end).
    rewrite IH; reflexivity.
Qed.

Lemma strip_idempotent (s : str) : strip (strip s) = strip s.
Proof.
  unfold strip.
  assert (H : lstrip (rstrip (lstrip s)) = rstrip (lstrip s)).
  { destruct (rstrip_prefix (lstrip s)) as [suf [E _]].
    destruct (rstrip (lstrip s)) as [|x r] eqn:R; [reflexivity|].
    apply lstrip_cons.
    apply (@lstrip_head s x (r ++ suf)); rewrite E; reflexivity. }
  rewrite H; apply rstrip_idempotent.
Qed.

Lemma strip_no_whitespace (s : str) : no_whitespace s = true -> strip s = s.
Proof.
  unfold strip, no_whitespace; intros H.
  assert (L : lstrip s = s).
  { destruct s as [|c s]; [reflexivity|]. simpl in *.
    apply andb_true_iff in H; destruct H as [Hc _].
    apply negb_true_iff in Hc; rewrite Hc; reflexivity. }
  rewrite L; clear L.
  induction s as [|c s IH]; [reflexivity|].
  simpl in H; apply andb_true_iff in H; destruct H as [Hc Hs].
  apply negb_true_iff in Hc.
  simpl; rewrite (IH Hs), Hc. destruct s; reflexivity.
Qed.

Lemma no_whitespace_firstn (n : nat) (s : str) :
  no_whitespace s = true -> no_whitespace (firstn n s) = true.
Proof.
  unfold no_whitespace; revert n; induction s as [|c s IH]; intros [|n] H;
    simpl in *; auto.
  apply andb_true_iff in H; destruct H as [Hc Hs].
  rewrite Hc, (IH n Hs); reflexivity.
Qed.

Lemma no_whitespace_nth (s : str) (j : nat) :
  no_whitespace s = true -> nth_error s j <> Some space.
Proof.
  unfold no_whitespace; intros H E.
  apply nth_error_In in E.
  rewrite forallb_forall in H; specialize (H _ E); discriminate.
Qed.

(** Without a space at the positions 1..e the backward search reports 0. *)
Lemma find_space_none (desc : str) (e : nat) :
  e < length desc ->
  (forall j, 0 < j <= e -> nth_error desc j <> Some space) ->
  find_space desc e = Ret 0.
Proof.
  intros He Hno.
  destruct (@find_space_spec desc e He) as [k [E [Hle [[->|Hat] _]]]];
    [exact E|].
  destruct k as [|k]; [exact E|].
  exfalso; apply (Hno (S k)); [lia | exact Hat].
Qed.

(** The dropping loop starts from a stripped text and only ever leaves a
    stripped text. *)
Lemma drop_until_fits_stripped (fuel : nat) (t r : str) (L : Z) :
  strip t = t -> drop_until_fits fuel t L = Ret r -> strip r = r.
Proof.
  revert t; induction fuel as [|fuel IH]; intros t Ht; simpl; [discriminate|].
  destruct (len t + 3 >? L)%Z.
  - apply IH, strip_idempotent.
  - intros E; inversion E; subst r; exact Ht.
Qed.

(** X1: on a limit of 3 or more, truncating the result of a truncation
    again returns it unchanged. *)
Theorem X1_truncate_idempotent (desc : str) (L : Z) (fuel : nat) :
  (3 <= L)%Z -> length desc < fuel ->
  exists r,
    truncate_task_description fuel desc L = Ret r
    /\ forall fuel', truncate_task_description fuel' r L = Ret r.
Proof.
  intros HL Hf.
  destruct (@truncate_returns desc L HL fuel Hf) as [r [E [Hlen _]]].
  exists r; split; [exact E|].
  intros fuel'; unfold truncate_task_description.
  destruct (Z.leb_spec (len r) L) as [_|H]; [reflexivity | lia].
Qed.

Lemma X1_truncate_idempotent_witness :
  exists r,
    truncate_task_description 33 (lit "Buy milk and eggs from the store") 15
    = Ret r
    /\ forall fuel', truncate_task_description fuel' r 15 = Ret r.
Proof.
  apply (@X1_truncate_idempotent (lit "Buy milk and eggs from the store") 15 33).
  - lia.
  - vm_compute; lia.
Defined.

(** X2: a description without any whitespace that is longer than a limit L
    of 3 or more is cut to its first L - 3 characters followed by ['...'],
    a result of exactly L characters. *)
Theorem X2_truncate_single_word (desc : str) (L : Z) (fuel : nat) :
  (3 <= L)%Z -> (L < len desc)%Z -> no_whitespace desc = true ->
  truncate_task_description fuel desc L
  = Ret (firstn (Z.to_nat (L - 3)) desc ++ ellipsis)
  /\ len (firstn (Z.to_nat (L - 3)) desc ++ ellipsis) = L.
Proof.
  intros HL Hlong Hw; split.
  - unfold truncate_task_description.
    destruct (Z.leb_spec (len desc) L) as [H|_]; [lia|].
    destruct (Z.ltb_spec 0 L) as [_|H]; [|lia].
    rewrite find_space_none;
      [ | unfold len in Hlong; lia
        | intros j _; apply no_whitespace_nth; exact Hw ].
    cbn [bind]. change (Z.of_nat 0 =? 0)%Z with true. cbv iota.
    unfold slice_to.
    destruct (Z.ltb_spec (L - 3) 0) as [H|_]; [lia|].
    rewrite strip_no_whitespace by (apply no_whitespace_firstn; exact Hw).
    reflexivity.
  - rewrite len_app_ellipsis; unfold len in *.
    rewrite length_firstn; lia.
Qed.

Lemma X2_truncate_single_word_witness :
  truncate_task_description 0 (lit "Supercalifragilisticexpialidocious") 10
  = Ret (firstn (Z.to_nat (10 - 3)) (lit "Supercalifragilisticexpialidocious")
         ++ ellipsis)
  /\ len (firstn (Z.to_nat (10 - 3))
            (lit "Supercalifragilisticexpialidocious") ++ ellipsis) = 10%Z.
Proof.
  apply (@X2_truncate_single_word
           (lit "Supercalifragilisticexpialidocious") 10 0).
  - lia.
  - vm_compute; reflexivity.
  - vm_compute; reflexivity.
Defined.

(** X3: on a limit of 3 or more, the text that a truncation keeps in front
    of the ['...'] has no whitespace at its start or at its end. *)
Theorem X3_truncate_keeps_stripped_text (desc : str) (L : Z) (fuel : nat) :
  (3 <= L)%Z -> (L < len desc)%Z -> length desc < fuel ->
  exists kept,
    truncate_task_description fuel desc L = Ret (kept ++ ellipsis)
    /\ strip kept = kept.
Proof.
  intros HL Hlong Hf.
  destruct (@truncate_returns desc L HL fuel Hf) as [r [E _]].
  revert E; unfold truncate_task_description.
  destruct (Z.leb_spec (len desc) L) as [H|_]; [lia|].
  destruct (Z.ltb_spec 0 L) as [_|H]; [|lia].
  destruct (find_space desc (Z.to_nat L)) as [k| |]; cbn [bind];
    try discriminate.
  destruct (Z.of_nat k =? 0)%Z.
  - intros _; eexists; split; [reflexivity | apply strip_idempotent].
  - destruct (drop_until_fits fuel (strip (slice_to desc (Z.of_nat k))) L)
      as [t| |] eqn:D; cbn [bind]; try discriminate.
    intros _; exists t; split; [reflexivity|].
    eapply drop_until_fits_stripped; [|exact D]; apply strip_idempotent.
Qed.

Lemma X3_truncate_keeps_stripped_text_witness :
  exists kept,
    truncate_task_description 33 (lit "Buy milk and eggs from the store") 15
    = Ret (kept ++ ellipsis)
    /\ strip kept = kept.
Proof.
  apply (@X3_truncate_keeps_stripped_text
           (lit "Buy milk and eggs from the store") 15 33).
  - lia.
  - vm_compute; reflexivity.
  - vm_compute; lia.
Defined.

(** * Further properties of the dated rendering *)

(** X4: the dated rendering never cuts: its length is the larger of the
    total length and the length of description, date and [' ()'] framing,
    so a description longer than the room left for it overflows the
    width. *)
Theorem X4_dated_rendering_never_cuts (description formatted_date : str)
  (total : Z) :
  len (pad_task_description_with_date description formatted_date total)
  = Z.max total (len description + len formatted_date + 3)
  /\ firstn (length description)
       (pad_task_description_with_date description formatted_date total)
     = description.
Proof.
  split.
  - unfold pad_task_description_with_date.
    rewrite !len_app. unfold len at 2; rewrite length_spaces.
    change (len (lit " (")) with 2%Z; change (len (lit ")")) with 1%Z.
    unfold len; lia.
  - unfold pad_task_description_with_date.
    rewrite <- !app_assoc, firstn_app, Nat.sub_diag, firstn_all; simpl.
    apply app_nil_r.
Qed.

(** * Stability of the sort *)

Lemma key_eqb_fields (a b : bool * datetime) :
  key_eqb a b = true -> key_fields a = key_fields b.
Proof.
  destruct a as [fa da], b as [fb db]; unfold key_eqb, key_fields; simpl.
  rewrite andb_true_iff; intros [Hf Hd].
  apply eqb_prop in Hf; subst fb.
  apply lex_eqb_eq in Hd; rewrite Hd; reflexivity.
Qed.

Lemma same_key_not_below (k : bool * datetime) (x y : task) :
  key_eqb (sort_key x) k = true -> key_eqb (sort_key y) k = true ->
  key_ltb (sort_key y) (sort_key x) = false.
Proof.
  intros Hx Hy. rewrite key_ltb_lex.
  rewrite (key_eqb_fields _ _ Hx), (key_eqb_fields _ _ Hy).
  apply lex_ltb_irrefl.
Qed.

Lemma insert_task_stable (k : bool * datetime) (x : task) (l : list task) :
  filter (fun t => key_eqb (sort_key t) k) (insert_task x l)
  = filter (fun t => key_eqb (sort_key t) k) (x :: l).
Proof.
  induction l as [|y l IH]; [reflexivity|].
  cbn [insert_task].
  destruct (key_ltb (sort_key y) (sort_key x)) eqn:E; [|reflexivity].
  cbn [filter] in *. rewrite IH.
  destruct (key_eqb (sort_key x) k) eqn:Hx;
    destruct (key_eqb (sort_key y) k) eqn:Hy; try reflexivity.
  rewrite (same_key_not_below k x y Hx Hy) in E; discriminate.
Qed.

(** X5: the sort is stable: the tasks that share a sort key come out in
    the order in which they went in; in particular the undated tasks keep
    the order they have in the file. *)
Theorem X5_sort_is_stable (tasks : list task) :
  (forall k,
      filter (fun t => key_eqb (sort_key t) k) (sort_tasks tasks)
      = filter (fun t => key_eqb (sort_key t) k) tasks)
  /\ filter (fun t => match snd t with None => true | Some _ => false end)
       (sort_tasks tasks)
     = filter (fun t => match snd t with None => true | Some _ => false end)
         tasks.
Proof.
  assert (H : forall k,
             filter (fun t => key_eqb (sort_key t) k) (sort_tasks tasks)
             = filter (fun t => key_eqb (sort_key t) k) tasks).
  { intros k; induction tasks as [|x l IH]; [reflexivity|].
    cbn [sort_tasks fold_right]. fold (sort_tasks l).
    rewrite insert_task_stable. cbn [filter]. rewrite IH; reflexivity. }
  split; [exact H|].
  assert (E : forall l : list task,
             filter (fun t => match snd t with None => true | Some _ => false end) l
             = filter (fun t => key_eqb (sort_key t) (true, datetime_max)) l).
  { intros l; apply filter_ext; intros [d [due|]]; reflexivity. }
  rewrite !E; apply H.
Qed.

(** * Further properties of the parsing loop *)

(** The parsing loop goes from a list of lines to the list without its
    first line or without its first two lines. *)
Lemma lines_ind2 (P : list str -> Prop) :
  P [] ->
  (forall raw rest,
      P rest ->
      (forall raw_next rest', rest = raw_next :: rest' -> P rest') ->
      P (raw :: rest)) ->
  forall lines, P lines.
Proof.
  intros H0 Hstep lines.
  assert (Q : P lines /\ P (tl lines)).
  { induction lines as [|raw rest [IH1 IH2]]; [split; exact H0|].
    split; [|exact IH1].
    apply Hstep; [exact IH1|].
    intros raw_next rest' E; subst rest; exact IH2. }
  exact (proj1 Q).
Qed.

Lemma strptime_date_cases (date : str) :
  strptime_date date = Raise ValueError
  \/ exists dt, strptime_date date = Ret dt
                /\ valid_datetime dt /\ second dt = 0%Z /\ microsecond dt = 0%Z.
Proof.
  unfold strptime_date.
  destruct (valid_date _ _ _) eqn:V; [right | left; reflexivity].
  eexists; split; [reflexivity|].
  unfold valid_date in V; rewrite !andb_true_iff, !Z.leb_le in V.
  unfold valid_datetime; cbn [year month day hour minute second microsecond].
  repeat split; lia.
Qed.

Lemma strptime_date_time_cases (date time : str) :
  strptime_date_time date time = Raise ValueError
  \/ exists dt, strptime_date_time date time = Ret dt
                /\ valid_datetime dt /\ second dt = 0%Z /\ microsecond dt = 0%Z.
Proof.
  unfold strptime_date_time.
  destruct (valid_date _ _ _ && valid_time _ _) eqn:V;
    [right | left; reflexivity].
  eexists; split; [reflexivity|].
  unfold valid_date, valid_time in V; rewrite !andb_true_iff, !Z.leb_le in V.
  unfold valid_datetime; cbn [year month day hour minute second microsecond].
  repeat split; lia.
Qed.

(** One turn of the parsing loop. *)
Lemma parse_lines_step (raw : str) (rest : list str) :
  (startswith todo_marker (strip raw) = false
   /\ parse_lines (raw :: rest) = parse_lines rest)
  \/ (startswith todo_marker (strip raw) = true
      /\ (parse_lines (raw :: rest) = Raise ValueError
          \/ parse_lines (raw :: rest)
             = (tasks <- parse_lines rest ;;
                Ret ((parse_task_line (strip raw), None) :: tasks))
          \/ exists raw_next rest' dt,
              rest = raw_next :: rest'
              /\ valid_datetime dt /\ second dt = 0%Z /\ microsecond dt = 0%Z
              /\ parse_lines (raw :: rest)
                 = (tasks <- parse_lines rest' ;;
                    Ret ((parse_task_line (strip raw), Some dt) :: tasks)))).
Proof.
  cbn [parse_lines].
  destruct (startswith todo_marker (strip raw)); [right | left; auto].
  split; [reflexivity|].
  destruct rest as [|raw_next rest']; [right; left; reflexivity|].
  destruct (contains scheduled_marker (strip raw_next));
    [|right; left; reflexivity].
  destruct (parse_scheduled_line (strip raw_next)) as [[date|] time];
    [|right; left; reflexivity].
  assert (C : (match time with
               | Some t => strptime_date_time date t
               | None => strptime_date date
               end) = Raise ValueError
              \/ exists dt, (match time with
                             | Some t => strptime_date_time date t
                             | None => strptime_date date
                             end) = Ret dt
                            /\ valid_datetime dt /\ second dt = 0%Z
                            /\ microsecond dt = 0%Z).
  { destruct time; [apply strptime_date_time_cases | apply strptime_date_cases]. }
  destruct C as [C | [dt [C [V [S0 U0]]]]]; rewrite C; cbn [bind].
  - left; reflexivity.
  - right; right; exists raw_next, rest', dt; auto.
Qed.

(** X6: whatever the lines, the parsing loop either returns a task list or
    stops with [ValueError]; it raises nothing else.  A returned list has
    at most as many tasks as there are lines, and each task comes from a
    line that, stripped, begins with ['- TODO'] and has the description
    that [parse_task_line] extracts from that line. *)
Theorem X6_parse_lines_outcomes (lines : list str) :
  (parse_lines lines = Raise ValueError
   \/ exists tasks, parse_lines lines = Ret tasks)
  /\ forall tasks,
      parse_lines lines = Ret tasks ->
      length tasks <= length lines
      /\ Forall (from_marked_line lines) tasks.
Proof.
  split.
  - induction lines as [|raw rest IH1 IH2] using lines_ind2;
      [right; exists []; reflexivity|].
    destruct (parse_lines_step raw rest)
      as [[_ E] | [_ [E | [E | [rn [r' [dt [Er [_ [_ [_ E]]]]]]]]]]];
      rewrite E; auto.
    + destruct IH1 as [R | [ts R]]; rewrite R; cbn [bind]; eauto.
    + destruct (IH2 rn r' Er) as [R | [ts R]]; rewrite R; cbn [bind]; eauto.
  - intros tasks H; split;
      [|exact (@parse_lines_tasks (length lines) lines tasks (le_n _) H)].
    revert tasks H.
    induction lines as [|raw rest IH1 IH2] using lines_ind2; intros tasks.
    + intros H; inversion H; simpl; lia.
    + destruct (parse_lines_step raw rest)
        as [[_ E] | [_ [E | [E | [rn [r' [dt [Er [_ [_ [_ E]]]]]]]]]]];
        rewrite E.
      * intros H; apply IH1 in H; simpl; lia.
      * discriminate.
      * destruct (parse_lines rest) as [ts| |]; cbn [bind]; try discriminate.
        intros H; inversion H; subst tasks.
        specialize (IH1 ts eq_refl); simpl; lia.
      * destruct (parse_lines r') as [ts| |] eqn:R; cbn [bind];
          try discriminate.
        intros H; inversion H; subst tasks.
        specialize (IH2 rn r' Er ts R); subst rest; simpl in *; lia.
Qed.

Lemma X6_parse_lines_outcomes_witness :
  length [(Some (lit "pay rent"), Some (mkdt 2024 5 6 10 2 0 0))]
  <= length [lit "- TODO pay rent"; lit "SCHEDULED: <2024-05-06 Mon 10:02>"]
  /\ Forall (from_marked_line
               [lit "- TODO pay rent"; lit "SCHEDULED: <2024-05-06 Mon 10:02>"])
       [(Some (lit "pay rent"), Some (mkdt 2024 5 6 10 2 0 0))].
Proof.
  apply (proj2 (X6_parse_lines_outcomes
                  [lit "- TODO pay rent";
                   lit "SCHEDULED: <2024-05-06 Mon 10:02>"])).
  vm_compute; reflexivity.
Defined.

(** X7: every due time in a task list returned by the parsing loop is a
    valid calendar date and time of day, with zero seconds and zero
    microseconds. *)
Theorem X7_parsed_due_times_are_valid (lines : list str) (tasks : list task) :
  parse_lines lines = Ret tasks ->
  Forall (fun t => forall dt, snd t = Some dt ->
                   valid_datetime dt
                   /\ second dt = 0%Z /\ microsecond dt = 0%Z) tasks.
Proof.
  revert tasks.
  induction lines as [|raw rest IH1 IH2] using lines_ind2; intros tasks.
  - intros H; inversion H; constructor.
  - destruct (parse_lines_step raw rest)
      as [[_ E] | [_ [E | [E | [rn [r' [dt [Er [V [S0 [U0 E]]]]]]]]]]];
      rewrite E.
    + apply IH1.
    + discriminate.
    + destruct (parse_lines rest) as [ts| |]; cbn [bind]; try discriminate.
      intros H; inversion H; subst tasks.
      constructor; [intros dt0 D; discriminate | apply IH1; reflexivity].
    + destruct (parse_lines r') as [ts| |] eqn:R; cbn [bind];
        try discriminate.
      intros H; inversion H; subst tasks.
      constructor; [|exact (IH2 rn r' Er ts R)].
      intros dt0 D; cbn [snd] in D; inversion D; subst dt0; auto.
Qed.

Lemma X7_parsed_due_times_witness :
  Forall (fun t => forall dt, snd t = Some dt ->
                   valid_datetime dt
                   /\ second dt = 0%Z /\ microsecond dt = 0%Z)
    [(Some (lit "pay rent"), Some (mkdt 2024 5 6 10 2 0 0))].
Proof.
  apply (@X7_parsed_due_times_are_valid
           [lit "- TODO pay rent"; lit "SCHEDULED: <2024-05-06 Mon 10:02>"]).
  vm_compute; reflexivity.
Defined.

(** * The extracted tokens and the timestamp identity *)

Lemma re_search_match (p : pattern) (s m : str) :
  re_search p s = Some m -> re_match p m = true.
Proof.
  induction s as [|c s IH]; cbn [re_search].
  - destruct (re_match p []) eqn:E; [|discriminate].
    intros H; inversion H; subst m; exact E.
  - destruct (re_match p (c :: s)) eqn:E; [|exact IH].
    intros H; inversion H; subst m; exact E.
Qed.

(** X8: whatever the line, a date that [parse_scheduled_line] extracts is
    a ten-character token of the shape [YYYY-MM-DD], and a time it
    extracts is a five-character token of the shape [HH:MM]: the fields
    that the two [strptime] formats read are runs of digits of full
    width. *)
Theorem X8_extracted_tokens_have_their_shape (line : str) :
  (forall date, fst (parse_scheduled_line line) = Some date ->
                date_shaped date = true)
  /\ (forall time, snd (parse_scheduled_line line) = Some time ->
                   time_shaped time = true).
Proof.
  unfold parse_scheduled_line; cbn [fst snd]; split.
  - intros date.
    destruct (re_search (chars "SCHEDULED: <" ++ date_pattern) line)
      as [m|] eqn:R; [|discriminate].
    cbn [option_map]; intros H.
    replace date with (firstn 10 (skipn 12 m)) by (now inversion H).
    clear H. apply re_search_match in R. unfold chars in R.
    rewrite re_match_chars_app in R.
    apply andb_true_iff in R; destruct R as [_ R].
    change (length (lit "SCHEDULED: <")) with 12 in R.
    rewrite re_match_firstn in R. change (length date_pattern) with 10 in R.
    rewrite date_shaped_pattern. change (length date_pattern) with 10.
    exact R.
  - intros time.
    destruct (re_search time_pattern line) as [m|] eqn:R; [|discriminate].
    cbn [option_map]; intros H.
    replace time with (firstn 5 m) by (now inversion H).
    clear H. apply re_search_match in R.
    rewrite re_match_firstn in R. change (length time_pattern) with 5 in R.
    rewrite time_shaped_pattern. change (length time_pattern) with 5.
    exact R.
Qed.

Lemma X8_extracted_tokens_witness :
  date_shaped (lit "2024-05-06") = true.
Proof.
  apply (proj1 (X8_extracted_tokens_have_their_shape
                  (lit "SCHEDULED: <2024-05-06 Mon 10:02>"))).
  vm_compute; reflexivity.
Defined.

Lemma digit_char_inj (a b : Z) :
  digit_char a = digit_char b -> (a mod 10 = b mod 10)%Z.
Proof.
  unfold digit_char; intros H.
  pose proof (Z.mod_pos_bound a 10 ltac:(lia)).
  pose proof (Z.mod_pos_bound b 10 ltac:(lia)).
  apply (f_equal nat_of_ascii) in H.
  rewrite !nat_ascii_embedding in H by lia.
  lia.
Qed.

Lemma digits2 (a : Z) :
  (0 <= a <= 99)%Z -> (a = 10 * ((a / 10) mod 10) + a mod 10)%Z.
Proof.
  intros H.
  pose proof (Z.div_mod a 10 ltac:(lia)).
  pose proof (Z.div_mod (a / 10) 10 ltac:(lia)).
  assert (a / 10 / 10 = 0)%Z
    by (rewrite !Z.div_div by lia; apply Z.div_small; lia).
  lia.
Qed.

Lemma digits4 (a : Z) :
  (0 <= a <= 9999)%Z ->
  (a = 1000 * ((a / 1000) mod 10) + 100 * ((a / 100) mod 10)
       + 10 * ((a / 10) mod 10) + a mod 10)%Z.
Proof.
  intros H.
  replace (a / 1000)%Z with (a / 10 / 10 / 10)%Z
    by (rewrite !Z.div_div by lia; reflexivity).
  replace (a / 100)%Z with (a / 10 / 10)%Z
    by (rewrite !Z.div_div by lia; reflexivity).
  pose proof (Z.div_mod a 10 ltac:(lia)).
  pose proof (Z.div_mod (a / 10) 10 ltac:(lia)).
  pose proof (Z.div_mod (a / 10 / 10) 10 ltac:(lia)).
  pose proof (Z.div_mod (a / 10 / 10 / 10) 10 ltac:(lia)).
  assert (a / 10 / 10 / 10 / 10 = 0)%Z
    by (rewrite !Z.div_div by lia; apply Z.div_small; lia).
  lia.
Qed.

Lemma digits6 (a : Z) :
  (0 <= a <= 999999)%Z ->
  (a = 100000 * ((a / 100000) mod 10) + 10000 * ((a / 10000) mod 10)
       + 1000 * ((a / 1000) mod 10) + 100 * ((a / 100) mod 10)
       + 10 * ((a / 10) mod 10) + a mod 10)%Z.
Proof.
  intros H.
  replace (a / 100000)%Z with (a / 10 / 10 / 10 / 10 / 10)%Z
    by (rewrite !Z.div_div by lia; reflexivity).
  replace (a / 10000)%Z with (a / 10 / 10 / 10 / 10)%Z
    by (rewrite !Z.div_div by lia; reflexivity).
  replace (a / 1000)%Z with (a / 10 / 10 / 10)%Z
    by (rewrite !Z.div_div by lia; reflexivity).
  replace (a / 100)%Z with (a / 10 / 10)%Z
    by (rewrite !Z.div_div by lia; reflexivity).
  pose proof (Z.div_mod a 10 ltac:(lia)).
  pose proof (Z.div_mod (a / 10) 10 ltac:(lia)).
  pose proof (Z.div_mod (a / 10 / 10) 10 ltac:(lia)).
  pose proof (Z.div_mod (a / 10 / 10 / 10) 10 ltac:(lia)).
  pose proof (Z.div_mod (a / 10 / 10 / 10 / 10) 10 ltac:(lia)).
  pose proof (Z.div_mod (a / 10 / 10 / 10 / 10 / 10) 10 ltac:(lia)).
  assert (a / 10 / 10 / 10 / 10 / 10 / 10 = 0)%Z
    by (rewrite !Z.div_div by lia; apply Z.div_small; lia).
  lia.
Qed.

Lemma days_in_month_le_31 (y m : Z) : (days_in_month y m <= 31)%Z.
Proof.
  unfold days_in_month.
  repeat match goal with
         | |- context [match ?x with _ => _ end] => destruct x
         end; lia.
Qed.

Ltac digits_agree :=
  repeat match goal with
         | H : digit_char _ = digit_char _ |- _ => apply digit_char_inj in H
         end.

(** X9: the timestamp identity tells due times apart: two valid datetimes
    with the same ISO form are the same datetime, so the gate suppresses a
    task for the identity of another only when both are due at the same
    instant. *)
Theorem X9_identity_is_injective (d1 d2 : datetime) :
  valid_datetime d1 -> valid_datetime d2 ->
  isoformat d1 = isoformat d2 -> d1 = d2.
Proof.
  destruct d1 as [y1 m1 a1 h1 i1 s1 u1], d2 as [y2 m2 a2 h2 i2 s2 u2].
  unfold valid_datetime; cbn [year month day hour minute second microsecond].
  intros (Hy1 & Hm1 & Ha1 & Hh1 & Hi1 & Hs1 & Hu1)
         (Hy2 & Hm2 & Ha2 & Hh2 & Hi2 & Hs2 & Hu2).
  pose proof (days_in_month_le_31 y1 m1); pose proof (days_in_month_le_31 y2 m2).
  unfold isoformat, pad4, pad2, pad6;
    cbn [year month day hour minute second microsecond lit
         list_ascii_of_string app].
  intros E.
  assert (Hu : u1 = u2).
  { destruct (Z.eqb_spec u1 0) as [->|N1], (Z.eqb_spec u2 0) as [->|N2];
      [reflexivity
      | apply (f_equal (@length ascii)) in E; discriminate E
      | apply (f_equal (@length ascii)) in E; discriminate E
      | ].
    injection E as _ _ _ _ _ _ _ _ _ _ _ _ _ _ G5 G4 G3 G2 G1 G0.
    digits_agree.
    pose proof (@digits6 u1 ltac:(lia)); pose proof (@digits6 u2 ltac:(lia)).
    lia. }
  subst u2.
  assert (E' : firstn 19 (isoformat (mkdt y1 m1 a1 h1 i1 s1 u1))
               = firstn 19 (isoformat (mkdt y2 m2 a2 h2 i2 s2 u1))).
  { unfold isoformat, pad4, pad2, pad6;
      cbn [year month day hour minute second microsecond lit
           list_ascii_of_string app].
    rewrite E; reflexivity. }
  clear E.
  unfold isoformat, pad4, pad2 in E';
    cbn [year month day hour minute second microsecond lit
         list_ascii_of_string app firstn] in E'.
  injection E' as Y3 Y2 Y1 Y0 M1 M0 A1 A0 G1 G0 I1 I0 S1 S0.
  digits_agree.
  f_equal.
  - pose proof (@digits4 y1 ltac:(lia)); pose proof (@digits4 y2 ltac:(lia)).
    lia.
  - pose proof (@digits2 m1 ltac:(lia)); pose proof (@digits2 m2 ltac:(lia)).
    lia.
  - pose proof (@digits2 a1 ltac:(lia)); pose proof (@digits2 a2 ltac:(lia)).
    lia.
  - pose proof (@digits2 h1 ltac:(lia)); pose proof (@digits2 h2 ltac:(lia)).
    lia.
  - pose proof (@digits2 i1 ltac:(lia)); pose proof (@digits2 i2 ltac:(lia)).
    lia.
  - pose proof (@digits2 s1 ltac:(lia)); pose proof (@digits2 s2 ltac:(lia)).
    lia.
Qed.

Lemma X9_identity_is_injective_witness :
  mkdt 2024 5 6 10 2 0 0 = mkdt 2024 5 6 10 2 0 0.
Proof.
  apply (@X9_identity_is_injective
           (mkdt 2024 5 6 10 2 0 0) (mkdt 2024 5 6 10 2 0 0)).
  - unfold valid_datetime; vm_compute; intuition discriminate.
  - unfold valid_datetime; vm_compute; intuition discriminate.
  - reflexivity.
Defined.

(** * The tracker across the slots of a run *)

Lemma pushes_app (a b : list event) : pushes (a ++ b) = pushes a ++ pushes b.
Proof.
  induction a as [|[i c|i t p|t b'] a IH]; simpl; auto. rewrite IH; auto.
Qed.

Lemma gate_calls_app (a b : list event) :
  gate_calls (a ++ b) = gate_calls a ++ gate_calls b.
Proof.
  induction a as [|[i c|i t p|t b'] a IH]; simpl; auto. rewrite IH; auto.
Qed.

(** What the notification block does to the gate log, to the pushes and
    to the tracker, by the identity of the slot. *)
Lemma notify_gate (now : datetime) (i : nat) (dt : datetime) (display : str)
  (w : world) :
  let w' := notify now i dt display w in
  if due_soon dt now
  then gate_calls (trace w')
       = gate_calls (trace w)
         ++ [(isoformat dt,
              fst (should_send_notification (tracker w) (isoformat dt)))]
       /\ tracker w'
          = snd (should_send_notification (tracker w) (isoformat dt))
       /\ length (pushes (trace w'))
          = length (pushes (trace w))
            + permitted
                [fst (should_send_notification (tracker w) (isoformat dt))]
  else w' = w.
Proof.
  unfold notify. destruct (due_soon dt now); [|reflexivity].
  destruct (should_send_notification (tracker w) (isoformat dt)) as [permit t'].
  destruct permit; unfold send_pushbullet_notification, emit, permitted;
    cbn [trace tracker fst snd];
    rewrite ?gate_calls_app, ?pushes_app, ?length_app; simpl;
    rewrite ?app_nil_r; repeat split; try reflexivity; lia.
Qed.

Section GateLog.

Variable now : datetime.
Variable tasks : list task.

Lemma render_slot_gate (i : nat) (w : world) :
  described tasks i ->
  exists w',
    render_slot now tasks i w = (w', Ret tt)
    /\ match slot_identity now tasks i with
       | Some t =>
           gate_calls (trace w')
           = gate_calls (trace w)
             ++ [(t, fst (should_send_notification (tracker w) t))]
           /\ tracker w' = snd (should_send_notification (tracker w) t)
           /\ length (pushes (trace w'))
              = length (pushes (trace w))
                + permitted [fst (should_send_notification (tracker w) t)]
       | None =>
           gate_calls (trace w') = gate_calls (trace w)
           /\ tracker w' = tracker w
           /\ length (pushes (trace w')) = length (pushes (trace w))
       end.
Proof.
  intros Hd; unfold render_slot, slot_identity, described in *.
  destruct (nth_error tasks i) as [[[d|] [dt|]]|] eqn:E;
    try (exfalso; eapply Hd; reflexivity).
  - pose proof (format_date_len dt) as Hf.
    destruct (@truncate_call_fits d (total_length - (len (format_date dt) + 3)))
      as [r [Hr _]]; [unfold total_length; lia|].
    rewrite Hr.
    eexists; split; [reflexivity|].
    pose proof (notify_gate now i dt
                  (pad_task_description_with_date r (format_date dt)
                     total_length) w) as N.
    cbv zeta in N.
    unfold write_task_file, emit; cbn [trace tracker].
    rewrite gate_calls_app, pushes_app; simpl; rewrite !app_nil_r.
    destruct (due_soon dt now); [exact N | rewrite N; auto].
  - destruct (@truncate_call_fits d total_length) as [r [Hr _]];
      [unfold total_length; lia|].
    rewrite Hr.
    eexists; split; [reflexivity|].
    unfold write_task_file, emit; cbn [trace tracker].
    rewrite gate_calls_app, pushes_app; simpl; rewrite !app_nil_r; auto.
  - eexists; split; [reflexivity|].
    unfold write_task_file, emit; cbn [trace tracker].
    rewrite gate_calls_app, pushes_app; simpl; rewrite !app_nil_r; auto.
Qed.

Lemma permitted_cons (b : bool) (bs : list bool) :
  permitted (b :: bs) = permitted [b] + permitted bs.
Proof. unfold permitted; destruct b; simpl; reflexivity. Qed.

Lemma for_range_gate (indices : list nat) (w : world) :
  (forall i, In i indices -> described tasks i) ->
  exists w',
    for_range (render_slot now tasks) indices w = (w', Ret tt)
    /\ gate_calls (trace w')
       = gate_calls (trace w)
         ++ combine (due_identities now tasks indices)
              (fst (run_gate (tracker w) (due_identities now tasks indices)))
    /\ tracker w'
       = snd (run_gate (tracker w) (due_identities now tasks indices))
    /\ length (pushes (trace w'))
       = length (pushes (trace w))
         + permitted
             (fst (run_gate (tracker w) (due_identities now tasks indices))).
Proof.
  revert w; induction indices as [|i indices IH]; intros w Hd.
  - exists w; cbn; rewrite app_nil_r; auto.
  - destruct (@render_slot_gate i w) as [w1 [E S]];
      [apply Hd; left; reflexivity|].
    destruct (IH w1) as [w' [E' [Hg [Ht Hp]]]];
      [intros k Hk; apply Hd; right; exact Hk|].
    exists w'; cbn [for_range]; rewrite E; split; [exact E'|].
    unfold due_identities in *; cbn [flat_map].
    destruct (slot_identity now tasks i) as [t|].
    + destruct S as [Sg [St Sp]].
      cbn [app run_gate].
      destruct (should_send_notification (tracker w) t) as [b trk1] eqn:G.
      cbn [fst snd] in *. rewrite St in *.
      destruct (run_gate trk1 _) as [answers final] eqn:R.
      cbn [fst snd combine] in *.
      rewrite Hg, Sg, <- app_assoc, Ht, Hp, Sp, (permitted_cons b answers).
      repeat split; lia.
    + destruct S as [Sg [St Sp]].
      cbn [app]. rewrite St, Sg, Sp in *. auto.
Qed.

End GateLog.

Lemma run_gate_length (ids : list str) (tracker_file : option str) :
  length (fst (run_gate tracker_file ids)) = length ids.
Proof.
  revert tracker_file; induction ids as [|t ids IH]; intros trk; [reflexivity|].
  cbn [run_gate].
  destruct (should_send_notification trk t) as [b trk1].
  specialize (IH trk1). destruct (run_gate trk1 ids); simpl in *; lia.
Qed.

(** With the tracker holding each identity asked about, every answer is
    no and the tracker stays as it is. *)
Lemma run_gate_held (ids : list str) (tracker_file : option str) :
  (forall t, In t ids -> option_map strip tracker_file = Some t) ->
  run_gate tracker_file ids = (repeat false (length ids), tracker_file).
Proof.
  induction ids as [|t ids IH]; intros H; [reflexivity|].
  cbn [run_gate].
  rewrite gate_suppresses by (apply H; left; reflexivity).
  rewrite IH by (intros t' I; apply H; right; exact I).
  reflexivity.
Qed.



Lemma described_first_slots (tasks : list task) :
  (forall i, i < max_tasks -> described tasks i) ->
  forall i, In i (seq 0 max_tasks) -> described tasks i.
Proof. intros H i I; apply H; apply in_seq in I; lia. Qed.



Lemma permitted_repeat_false (n : nat) : permitted (repeat false n) = 0.
Proof. unfold permitted; induction n; simpl; auto. Qed.

(** X11: when the tracker file already holds the identity of every
    due-soon slot among the first five (in particular when no slot is due
    soon) the run sends no push and leaves the tracker file as it is. *)
Theorem X11_nothing_new_nothing_sent (now : datetime) (tasks : list task)
  (tracker_file : option str) :
  (forall i, i < max_tasks -> described tasks i) ->
  (forall t, In t (due_identities now tasks (seq 0 max_tasks)) ->
             option_map strip tracker_file = Some t) ->
  let w' := fst (render_all now tasks (mkworld [] tracker_file)) in
  pushes (trace w') = [] /\ tracker w' = tracker_file.
Proof.
  intros Hd Hheld.
  destruct (@for_range_gate now tasks (seq 0 max_tasks)
              (mkworld [] tracker_file) (described_first_slots Hd))
    as [w' [E [_ [Ht Hp]]]].
  unfold render_all; rewrite E; cbn [fst].
  cbn [trace tracker pushes length Nat.add] in Ht, Hp.
  rewrite (run_gate_held _ _ Hheld) in Ht, Hp; cbn [fst snd] in Ht, Hp.
  rewrite permitted_repeat_false in Hp.
  split; [|exact Ht].
  destruct (pushes (trace w')); [reflexivity | discriminate].
Qed.

Lemma X11_nothing_new_nothing_sent_witness :
  let w' := fst (render_all (mkdt 2024 5 6 10 0 30 0)
                   [(Some (lit "pay rent"), Some (mkdt 2024 5 6 10 2 0 0))]
                   (mkworld [] (Some (lit "2024-05-06T10:02:00")))) in
  pushes (trace w') = []
  /\ tracker w' = Some (lit "2024-05-06T10:02:00").
Proof.
  apply (@X11_nothing_new_nothing_sent (mkdt 2024 5 6 10 0 30 0)
           [(Some (lit "pay rent"), Some (mkdt 2024 5 6 10 2 0 0))]
           (Some (lit "2024-05-06T10:02:00"))).
  - intros k Hk d due E.
    destruct k as [|k]; simpl in E.
    + inversion E; discriminate.
    + destruct k; discriminate.
  - intros t I. vm_compute in I. destruct I as [<-|[]]. reflexivity.
Defined.







(** * Whole runs *)

Lemma parse_lines_unmarked (lines : list str) :
  Forall (fun raw => startswith todo_marker (strip raw) = false) lines ->
  parse_lines lines = Ret [].
Proof.
  induction 1 as [|raw rest H _ IH]; [reflexivity|].
  cbn [parse_lines]; rewrite H; exact IH.
Qed.

(** X14: when no line of the file, stripped, begins with ['- TODO'] (the
    empty file included), the run writes the five widget files 0..4 with
    40 spaces each, asks the gate nothing, sends nothing and leaves the
    tracker file as it is. *)
Theorem X14_no_task_writes_blank_widgets (now : datetime) (lines : list str)
  (tracker_file : option str) :
  Forall (fun raw => startswith todo_marker (strip raw) = false) lines ->
  main now lines tracker_file
  = (mkworld [WriteWidget 0 (spaces 40); WriteWidget 1 (spaces 40);
              WriteWidget 2 (spaces 40); WriteWidget 3 (spaces 40);
              WriteWidget 4 (spaces 40)] tracker_file,
     Ret tt).
Proof.
  intros H; unfold main; rewrite (parse_lines_unmarked H); reflexivity.
Qed.

Lemma X14_no_task_witness :
  main (mkdt 2024 5 6 10 0 30 0) [lit "# Notes"; lit "- DONE pay rent"] None
  = (mkworld [WriteWidget 0 (spaces 40); WriteWidget 1 (spaces 40);
              WriteWidget 2 (spaces 40); WriteWidget 3 (spaces 40);
              WriteWidget 4 (spaces 40)] None,
     Ret tt).
Proof.
  apply (@X14_no_task_writes_blank_widgets (mkdt 2024 5 6 10 0 30 0)
           [lit "# Notes"; lit "- DONE pay rent"] None).
  repeat constructor.
Defined.

Lemma sorted_tasks_described (tasks : list task) :
  Forall (fun t => fst t <> None) tasks ->
  forall i, described (sort_tasks tasks) i.
Proof.
  intros H i d due E.
  apply nth_error_In in E.
  apply (Permutation_in _ (Permutation_sym (sort_tasks_perm tasks))) in E.
  rewrite Forall_forall in H; exact (H _ E).
Qed.

(** X15: when every line that, stripped, begins with ['- TODO'] yields a
    description, a run is all or nothing: either the parsing loop stops
    with [ValueError] and no file is written, or the run completes and
    writes exactly the five widget files 0..4, each of 40 characters and
    blank beyond the task count. *)
Theorem X15_run_writes_all_or_nothing (now : datetime) (lines : list str)
  (tracker_file : option str) :
  Forall (fun raw => startswith todo_marker (strip raw) = true ->
                     parse_task_line (strip raw) <> None) lines ->
  main now lines tracker_file = (mkworld [] tracker_file, Raise ValueError)
  \/ exists tasks w',
      parse_lines lines = Ret tasks
      /\ main now lines tracker_file = (w', Ret tt)
      /\ map fst (writes (trace w')) = [0; 1; 2; 3; 4]
      /\ Forall (well_rendered (sort_tasks tasks)) (writes (trace w')).
Proof.
  intros Hl; unfold main.
  destruct (parse_lines lines) as [tasks| |] eqn:P.
  - right.
    assert (Hd : Forall (fun t => fst t <> None) tasks).
    { pose proof (@parse_lines_tasks (length lines) lines tasks (le_n _) P) as F.
      eapply Forall_impl; [|exact F].
      intros t [raw [I [S E]]]. rewrite E.
      rewrite Forall_forall in Hl; exact (Hl raw I S). }
    destruct (@render_all_writes_every_slot now (sort_tasks tasks) tracker_file)
      as [w' [E [Hi Hf]]].
    + intros i _; apply sorted_tasks_described; exact Hd.
    + exists tasks, w'; auto.
  - left.
    assert (Q : parse_lines lines = Raise ValueError
                \/ exists ts, parse_lines lines = Ret ts).
    { clear P.
      induction lines as [|raw rest IH1 IH2] using lines_ind2;
        [right; exists []; reflexivity|].
      apply Forall_inv_tail in Hl as Hl'.
      destruct (parse_lines_step raw rest)
        as [[_ E] | [_ [E | [E | [rn [r' [dt [Er [_ [_ [_ E]]]]]]]]]]];
        rewrite E; auto.
      - destruct (IH1 Hl') as [R | [ts R]]; rewrite R; cbn [bind]; eauto.
      - subst rest. apply Forall_inv_tail in Hl'.
        destruct (IH2 rn r' eq_refl Hl') as [R | [ts R]]; rewrite R;
          cbn [bind]; eauto. }
    destruct Q as [Q | [ts Q]]; rewrite Q in P; [|discriminate].
    inversion P; reflexivity.
  - exfalso.
    assert (Q : parse_lines lines <> NoFuel).
    { clear P.
      induction lines as [|raw rest IH1 IH2] using lines_ind2;
        [discriminate|].
      apply Forall_inv_tail in Hl as Hl'.
      destruct (parse_lines_step raw rest)
        as [[_ E] | [_ [E | [E | [rn [r' [dt [Er [_ [_ [_ E]]]]]]]]]]];
        rewrite E; auto; try discriminate.
      - specialize (IH1 Hl').
        destruct (parse_lines rest); cbn [bind]; congruence.
      - subst rest. apply Forall_inv_tail in Hl'.
        specialize (IH2 rn r' eq_refl Hl').
        destruct (parse_lines r'); cbn [bind]; congruence. }
    contradiction.
Qed.

Lemma X15_run_writes_all_or_nothing_witness :
  main (mkdt 2024 5 6 10 0 30 0)
    [lit "- TODO pay rent"; lit "SCHEDULED: <2024-05-06 Mon 10:02>"] None
  = (mkworld [] None, Raise ValueError)
  \/ exists tasks w',
      parse_lines
        [lit "- TODO pay rent"; lit "SCHEDULED: <2024-05-06 Mon 10:02>"]
      = Ret tasks
      /\ main (mkdt 2024 5 6 10 0 30 0)
           [lit "- TODO pay rent"; lit "SCHEDULED: <2024-05-06 Mon 10:02>"]
           None = (w', Ret tt)
      /\ map fst (writes (trace w')) = [0; 1; 2; 3; 4]
      /\ Forall (well_rendered (sort_tasks tasks)) (writes (trace w')).
Proof.
  apply (@X15_run_writes_all_or_nothing (mkdt 2024 5 6 10 0 30 0)
           [lit "- TODO pay rent"; lit "SCHEDULED: <2024-05-06 Mon 10:02>"]
           None).
  constructor; [intros _; vm_compute; discriminate|].
  constructor; [intros H; vm_compute in H; discriminate H|].
  constructor.
Defined.




(** * Scheduling lines in the planner's form *)

Lemma digit_char_cases (n : Z) :
  In (digit_char n) (lit "0123456789").
Proof.
  unfold digit_char.
  assert (H : Z.to_nat (n mod 10) < 10)
    by (pose proof (Z.mod_pos_bound n 10); lia).
  remember (Z.to_nat (n mod 10)) as k eqn:Hk; clear Hk.
  do 10 (destruct k as [|k]; [simpl; tauto|]).
  lia.
Qed.

Ltac by_digit n :=
  let H := fresh in
  pose proof (digit_char_cases n) as H; simpl in H;
  repeat (destruct H as [H|H]; [rewrite <- H; reflexivity|]);
  contradiction.

Lemma is_digit_digit_char (n : Z) : is_digit (digit_char n) = true.
Proof. by_digit n. Qed.

Lemma colon_digit_char (n : Z) : Ascii.eqb ":"%char (digit_char n) = false.
Proof. by_digit n. Qed.

Lemma digit_val_digit_char (n : Z) : digit_val (digit_char n) = (n mod 10)%Z.
Proof.
  unfold digit_val, digit_char.
  pose proof (Z.mod_pos_bound n 10 ltac:(lia)).
  rewrite nat_ascii_embedding by lia. lia.
Qed.

Lemma num_pad2 (n : Z) : (0 <= n <= 99)%Z -> num (pad2 n) = n.
Proof.
  intros H; unfold num, pad2; cbn [fold_left].
  rewrite !digit_val_digit_char.
  pose proof (digits2 H). lia.
Qed.

Lemma num_pad4 (n : Z) : (0 <= n <= 9999)%Z -> num (pad4 n) = n.
Proof.
  intros H; unfold num, pad4; cbn [fold_left].
  rewrite !digit_val_digit_char.
  pose proof (digits4 H). lia.
Qed.

Lemma re_search_here (p : pattern) (s : str) :
  re_match p s = true -> re_search p s = Some s.
Proof. intros H; destruct s; cbn [re_search]; rewrite H; reflexivity. Qed.

Lemma re_search_next (p : pattern) (c : ascii) (s : str) :
  re_match p (c :: s) = false -> re_search p (c :: s) = re_search p s.
Proof. intros H; cbn [re_search]; rewrite H; reflexivity. Qed.

(** A time-shaped token has its colon in third place. *)
Lemma time_match_colon (a b c : ascii) (s : str) :
  Ascii.eqb ":"%char c = false -> re_match time_pattern (a :: b :: c :: s) = false.
Proof.
  intros H; unfold time_pattern; cbn [re_match].
  rewrite H. destruct (is_digit a), (is_digit b); reflexivity.
Qed.

Lemma time_match_short (s : str) :
  length s < 3 -> re_match time_pattern s = false.
Proof.
  destruct s as [|a [|b [|c s]]]; simpl; intros H; try lia;
    unfold time_pattern; cbn [re_match];
    try destruct (is_digit a); try destruct (is_digit b); reflexivity.
Qed.

(** No time is found in a text without a colon. *)
Lemma re_search_time_no_colon (s : str) :
  no_colon s = true -> re_search time_pattern s = None.
Proof.
  unfold no_colon; induction s as [|a s IH]; intros H.
  - reflexivity.
  - cbn [forallb] in H; apply andb_true_iff in H; destruct H as [_ H].
    rewrite re_search_next; [exact (IH H)|].
    destruct s as [|b [|c s]]; try (apply time_match_short; simpl; lia).
    apply time_match_colon.
    cbn [forallb] in H.
    apply andb_true_iff in H; destruct H as [_ H].
    apply andb_true_iff in H; destruct H as [H _].
    apply negb_true_iff in H; exact H.
Qed.

(** The search for a time passes over a text without a colon when the two
    characters after it are no colons either. *)
Lemma re_search_time_skip (pre : str) (x y : ascii) (s : str) :
  no_colon pre = true ->
  Ascii.eqb ":"%char x = false -> Ascii.eqb ":"%char y = false ->
  re_search time_pattern (pre ++ x :: y :: s)
  = re_search time_pattern (x :: y :: s).
Proof.
  unfold no_colon; intros H Hx Hy; induction pre as [|a pre IH];
    [reflexivity|].
  cbn [forallb] in H; apply andb_true_iff in H; destruct H as [_ H].
  cbn [app]. rewrite re_search_next; [exact (IH H)|].
  destruct pre as [|b [|c pre]]; cbn [app].
  - apply time_match_colon; exact Hy.
  - apply time_match_colon; exact Hx.
  - apply time_match_colon.
    cbn [forallb] in H.
    apply andb_true_iff in H; destruct H as [_ H].
    apply andb_true_iff in H; destruct H as [H _].
    apply negb_true_iff in H; exact H.
Qed.

Ltac no_time_here :=
  unfold time_pattern; cbn [re_match];
  rewrite ?is_digit_digit_char, ?colon_digit_char; reflexivity.

(** The search for a time finds nothing in ['SCHEDULED: <YYYY-MM-DD '] and
    goes on behind it. *)
Lemma re_search_time_after_date (y m d : Z) (s : str) :
  re_search time_pattern (lit "SCHEDULED: <" ++ ymd y m d ++ lit " " ++ s)
  = re_search time_pattern s.
Proof.
  unfold ymd, pad4, pad2; cbn [lit list_ascii_of_string app].
  do 23 (rewrite re_search_next by no_time_here).
  reflexivity.
Qed.

Lemma date_found (y m d : Z) (s : str) :
  re_search (chars "SCHEDULED: <" ++ date_pattern)
    (lit "SCHEDULED: <" ++ ymd y m d ++ s)
  = Some (lit "SCHEDULED: <" ++ ymd y m d ++ s).
Proof.
  apply re_search_here.
  unfold chars; rewrite re_match_chars_app.
  apply andb_true_iff; split; [reflexivity|].
  change (skipn (length (lit "SCHEDULED: <"))
            (lit "SCHEDULED: <" ++ ymd y m d ++ s)) with (ymd y m d ++ s).
  unfold ymd, pad4, pad2, date_pattern;
    cbn [lit list_ascii_of_string app re_match].
  rewrite !is_digit_digit_char; reflexivity.
Qed.

Lemma date_token (y m d : Z) (s : str) :
  firstn 10 (skipn 12 (lit "SCHEDULED: <" ++ ymd y m d ++ s)) = ymd y m d.
Proof. reflexivity. Qed.

Lemma strptime_ymd (y m d : Z) :
  valid_date y m d = true ->
  strptime_date (ymd y m d) = Ret (mkdt y m d 0 0 0 0).
Proof.
  intros V. unfold strptime_date.
  assert (R : (1 <= y <= 9999 /\ 1 <= m <= 12 /\ 1 <= d <= 31)%Z).
  { unfold valid_date in V; rewrite !andb_true_iff, !Z.leb_le in V.
    pose proof (days_in_month_le_31 y m); lia. }
  change (firstn 4 (ymd y m d)) with (pad4 y).
  change (firstn 2 (skipn 5 (ymd y m d))) with (pad2 m).
  change (firstn 2 (skipn 8 (ymd y m d))) with (pad2 d).
  rewrite num_pad4, !num_pad2 by lia.
  rewrite V; reflexivity.
Qed.

Lemma strptime_ymd_hm (y m d h mi : Z) :
  valid_date y m d = true -> valid_time h mi = true ->
  strptime_date_time (ymd y m d) (pad2 h ++ lit ":" ++ pad2 mi)
  = Ret (mkdt y m d h mi 0 0).
Proof.
  intros V T. unfold strptime_date_time.
  assert (R : (1 <= y <= 9999 /\ 1 <= m <= 12 /\ 1 <= d <= 31
               /\ 0 <= h <= 23 /\ 0 <= mi <= 59)%Z).
  { unfold valid_date in V; rewrite !andb_true_iff, !Z.leb_le in V.
    unfold valid_time in T; rewrite !andb_true_iff, !Z.leb_le in T.
    pose proof (days_in_month_le_31 y m); lia. }
  change (firstn 4 (ymd y m d)) with (pad4 y).
  change (firstn 2 (skipn 5 (ymd y m d))) with (pad2 m).
  change (firstn 2 (skipn 8 (ymd y m d))) with (pad2 d).
  change (firstn 2 (pad2 h ++ lit ":" ++ pad2 mi)) with (pad2 h).
  change (firstn 2 (skipn 3 (pad2 h ++ lit ":" ++ pad2 mi))) with (pad2 mi).
  rewrite num_pad4, !num_pad2 by lia.
  rewrite V, T; reflexivity.
Qed.

Lemma no_colon_app (a b : str) :
  no_colon a = true -> no_colon b = true -> no_colon (a ++ b) = true.
Proof.
  unfold no_colon; intros Ha Hb; rewrite forallb_app, Ha, Hb; reflexivity.
Qed.

Lemma parse_scheduled_line_planner (y m d h mi : Z) (weekday : str) :
  no_colon weekday = true ->
  parse_scheduled_line (scheduled_line y m d weekday h mi)
  = (Some (ymd y m d), Some (pad2 h ++ lit ":" ++ pad2 mi)).
Proof.
  intros W; unfold parse_scheduled_line, scheduled_line.
  rewrite date_found; cbn [option_map]; rewrite date_token.
  rewrite re_search_time_after_date.
  replace (weekday ++ lit " " ++ pad2 h ++ lit ":" ++ pad2 mi ++ lit ">")
    with ((weekday ++ lit " ")
          ++ digit_char (h / 10) :: digit_char h
             :: lit ":" ++ pad2 mi ++ lit ">")
    by (rewrite <- app_assoc; reflexivity).
  rewrite re_search_time_skip;
    [ | apply no_colon_app; [exact W | reflexivity]
      | apply colon_digit_char | apply colon_digit_char ].
  rewrite re_search_here; [reflexivity|].
  unfold time_pattern, pad2; cbn [lit list_ascii_of_string app re_match].
  rewrite !is_digit_digit_char; reflexivity.
Qed.

Lemma parse_scheduled_line_planner_day (y m d : Z) (weekday : str) :
  no_colon weekday = true ->
  parse_scheduled_line (scheduled_day_line y m d weekday)
  = (Some (ymd y m d), None).
Proof.
  intros W; unfold parse_scheduled_line, scheduled_day_line.
  rewrite date_found; cbn [option_map]; rewrite date_token.
  rewrite re_search_time_after_date.
  rewrite re_search_time_no_colon
    by (apply no_colon_app; [exact W | reflexivity]).
  reflexivity.
Qed.

Lemma contains_scheduled_marker (s : str) :
  contains scheduled_marker (lit "SCHEDULED: <" ++ s) = true.
Proof. reflexivity. Qed.

Lemma parse_planner_pair (todo raw_next : str) (rest : list str)
  (y m d h mi : Z) (weekday : str) :
  startswith todo_marker (strip todo) = true ->
  strip raw_next = scheduled_line y m d weekday h mi ->
  valid_date y m d = true -> valid_time h mi = true ->
  no_colon weekday = true ->
  parse_lines (todo :: raw_next :: rest)
  = tasks <- parse_lines rest ;;
    Ret ((parse_task_line (strip todo), Some (mkdt y m d h mi 0 0)) :: tasks).
Proof.
  intros Ht Hs V T W. cbn [parse_lines]. rewrite Ht, Hs.
  rewrite (@parse_scheduled_line_planner y m d h mi weekday W).
  unfold scheduled_line at 1; rewrite contains_scheduled_marker.
  rewrite (@strptime_ymd_hm y m d h mi V T). reflexivity.
Qed.

(** X17: a task line followed by a scheduling line of the planner's form
    [SCHEDULED: <YYYY-MM-DD Www HH:MM>] (the weekday any text without a
    colon, the date and the time valid, the line possibly indented or
    ended by a newline) is parsed into a task due at exactly that date
    and time, and the scheduling line is consumed with it. *)
Theorem X17_dated_timed_line_is_read_back (todo raw_next : str)
  (rest : list str) (y m d h mi : Z) (weekday : str) :
  startswith todo_marker (strip todo) = true ->
  strip raw_next = scheduled_line y m d weekday h mi ->
  valid_date y m d = true -> valid_time h mi = true ->
  no_colon weekday = true ->
  parse_lines (todo :: raw_next :: rest)
  = tasks <- parse_lines rest ;;
    Ret ((parse_task_line (strip todo), Some (mkdt y m d h mi 0 0)) :: tasks).
Proof. exact (@parse_planner_pair todo raw_next rest y m d h mi weekday). Qed.

Lemma X17_dated_timed_line_witness :
  parse_lines [lit "- TODO pay rent";
               lit "  SCHEDULED: <2024-05-06 Mon 10:02>"]
  = tasks <- parse_lines [] ;;
    Ret ((parse_task_line (strip (lit "- TODO pay rent")),
          Some (mkdt 2024 5 6 10 2 0 0)) :: tasks).
Proof.
  apply (@X17_dated_timed_line_is_read_back
           (lit "- TODO pay rent") (lit "  SCHEDULED: <2024-05-06 Mon 10:02>")
           [] 2024 5 6 10 2 (lit "Mon")); vm_compute; reflexivity.
Defined.

(** X18: a task line followed by a scheduling line of the form
    [SCHEDULED: <YYYY-MM-DD Www>], without a time of day, is parsed into a
    task due at midnight of that date. *)
Theorem X18_dated_line_is_due_at_midnight (todo raw_next : str)
  (rest : list str) (y m d : Z) (weekday : str) :
  startswith todo_marker (strip todo) = true ->
  strip raw_next = scheduled_day_line y m d weekday ->
  valid_date y m d = true -> no_colon weekday = true ->
  parse_lines (todo :: raw_next :: rest)
  = tasks <- parse_lines rest ;;
    Ret ((parse_task_line (strip todo), Some (mkdt y m d 0 0 0 0)) :: tasks).
Proof.
  intros Ht Hs V W. cbn [parse_lines]. rewrite Ht, Hs.
  rewrite (@parse_scheduled_line_planner_day y m d weekday W).
  unfold scheduled_day_line at 1; rewrite contains_scheduled_marker.
  rewrite (@strptime_ymd y m d V). reflexivity.
Qed.

Lemma X18_dated_line_witness :
  parse_lines [lit "- TODO pay rent"; lit "SCHEDULED: <2024-05-06 Mon>"]
  = tasks <- parse_lines [] ;;
    Ret ((parse_task_line (strip (lit "- TODO pay rent")),
          Some (mkdt 2024 5 6 0 0 0 0)) :: tasks).
Proof.
  apply (@X18_dated_line_is_due_at_midnight
           (lit "- TODO pay rent") (lit "SCHEDULED: <2024-05-06 Mon>")
           [] 2024 5 6 (lit "Mon")); vm_compute; reflexivity.
Defined.





(** * Path settings *)

Lemma dict_get_set_same (k v : str) (d : dict) :
  dict_get k (dict_set k v d) = Some v.
Proof.
  induction d as [|[k' v'] d IH]; simpl.
  - rewrite str_eqb_refl; reflexivity.
  - destruct (str_eqb k' k) eqn:E; simpl.
    + rewrite str_eqb_refl; reflexivity.
    + rewrite E; exact IH.
Qed.

Lemma dict_get_set_other (k k0 v : str) (d : dict) :
  str_eqb k k0 = false -> dict_get k0 (dict_set k v d) = dict_get k0 d.
Proof.
  intros N; induction d as [|[k' v'] d IH]; simpl.
  - rewrite N; reflexivity.
  - destruct (str_eqb k' k) eqn:E; simpl.
    + apply str_eqb_eq in E; subst k'. rewrite N; reflexivity.
    + rewrite IH; reflexivity.
Qed.

Lemma dict_set_get_same (k v : str) (d : dict) :
  dict_get k d = Some v -> dict_set k v d = d.
Proof.
  induction d as [|[k' v'] d IH]; simpl; [discriminate|].
  destruct (str_eqb k' k) eqn:E.
  - apply str_eqb_eq in E; subst k'. intros H; inversion H; reflexivity.
  - intros H; rewrite (IH H); reflexivity.
Qed.

Lemma join_step_nonempty (path b : str) : b <> [] -> join_step path b <> [].
Proof.
  destruct b as [|c b]; [congruence|]; intros _; unfold join_step.
  destruct (Ascii.eqb c sep); [discriminate|].
  destruct path as [|x path]; [discriminate|].
  destruct (endswith_char sep (x :: path)); discriminate.
Qed.

(** What a call of [prompt_for_paths] that returns has done. *)
Lemma prompt_for_paths_returns (home_dir : option str) (paths paths' : dict)
  (stdin stdin' : list str) :
  prompt_for_paths home_dir paths stdin = (Returns paths', stdin') ->
  exists paths1 output_dir markdown,
    dict_get (lit "markdown") paths1 = Some markdown
    /\ dict_get (lit "output_dir") paths1 = Some output_dir
    /\ paths'
       = dict_set (lit "notification_tracker")
           (path_join output_dir [lit "notification_tracker.txt"])
           (dict_set (lit "pushWidget_target")
              (path_join output_dir [lit "pushWidget"]) paths1)
    /\ (forall md, dict_get (lit "markdown") paths = Some md -> md <> [] ->
                   paths1 = paths /\ stdin' = stdin).
Proof.
  unfold prompt_for_paths.
  destruct home_dir as [home|]; [|discriminate].
  destruct (dict_get (lit "markdown") paths) as [markdown|] eqn:M;
    [|discriminate].
  destruct markdown as [|c markdown].
  - destruct (get_user_choice _ _ stdin) as [[[md od]|e] stdin1];
      [|discriminate].
    rewrite dict_get_set_same.
    intros H; inversion H; subst.
    exists (dict_set (lit "output_dir") od
              (dict_set (lit "markdown") md paths)), od, md.
    split; [rewrite dict_get_set_other by reflexivity;
            apply dict_get_set_same|].
    split; [apply dict_get_set_same|].
    split; [reflexivity|].
    intros md0 E N; inversion E; congruence.
  - destruct (dict_get (lit "output_dir") paths) as [od|] eqn:O;
      [|discriminate].
    intros H; inversion H; subst.
    exists paths, od, (c :: markdown); auto.
Qed.

(** X20: whenever [prompt_for_paths] returns, the settings hold a
    markdown path and an output directory, and the two derived settings
    are computed afresh from the output directory, whatever the
    configuration held for them: [pushWidget_target] is
    [join(output_dir, 'pushWidget')], [notification_tracker] is
    [join(output_dir, 'notification_tracker.txt')], and neither is
    empty. *)
Theorem X20_derived_paths_are_recomputed (home_dir : option str)
  (paths paths' : dict) (stdin stdin' : list str) :
  prompt_for_paths home_dir paths stdin = (Returns paths', stdin') ->
  exists markdown output_dir,
    dict_get (lit "markdown") paths' = Some markdown
    /\ dict_get (lit "output_dir") paths' = Some output_dir
    /\ dict_get (lit "pushWidget_target") paths'
       = Some (path_join output_dir [lit "pushWidget"])
    /\ dict_get (lit "notification_tracker") paths'
       = Some (path_join output_dir [lit "notification_tracker.txt"])
    /\ path_join output_dir [lit "pushWidget"] <> []
    /\ path_join output_dir [lit "notification_tracker.txt"] <> [].
Proof.
  intros H.
  destruct (prompt_for_paths_returns _ _ _ H)
    as [paths1 [od [md [M [O [E _]]]]]].
  exists md, od; subst paths'.
  split; [rewrite !dict_get_set_other by reflexivity; exact M|].
  split; [rewrite !dict_get_set_other by reflexivity; exact O|].
  split; [rewrite dict_get_set_other by reflexivity;
          apply dict_get_set_same|].
  split; [apply dict_get_set_same|].
  split; apply join_step_nonempty; discriminate.
Qed.

Lemma X20_derived_paths_witness :
  exists markdown output_dir,
    dict_get (lit "markdown")
      [(lit "markdown", lit "/notes/Logpush.md");
       (lit "output_dir", lit "/notes/out");
       (lit "pushWidget_target", lit "/notes/out/pushWidget");
       (lit "notification_tracker", lit "/notes/out/notification_tracker.txt")]
    = Some markdown
    /\ dict_get (lit "output_dir")
         [(lit "markdown", lit "/notes/Logpush.md");
          (lit "output_dir", lit "/notes/out");
          (lit "pushWidget_target", lit "/notes/out/pushWidget");
          (lit "notification_tracker",
           lit "/notes/out/notification_tracker.txt")]
       = Some output_dir
    /\ dict_get (lit "pushWidget_target")
         [(lit "markdown", lit "/notes/Logpush.md");
          (lit "output_dir", lit "/notes/out");
          (lit "pushWidget_target", lit "/notes/out/pushWidget");
          (lit "notification_tracker",
           lit "/notes/out/notification_tracker.txt")]
       = Some (path_join output_dir [lit "pushWidget"])
    /\ dict_get (lit "notification_tracker")
         [(lit "markdown", lit "/notes/Logpush.md");
          (lit "output_dir", lit "/notes/out");
          (lit "pushWidget_target", lit "/notes/out/pushWidget");
          (lit "notification_tracker",
           lit "/notes/out/notification_tracker.txt")]
       = Some (path_join output_dir [lit "notification_tracker.txt"])
    /\ path_join output_dir [lit "pushWidget"] <> []
    /\ path_join output_dir [lit "notification_tracker.txt"] <> [].
Proof.
  apply (@X20_derived_paths_are_recomputed (Some (lit "/home/u"))
           [(lit "markdown", lit "/notes/Logpush.md");
            (lit "output_dir", lit "/notes/out");
            (lit "pushWidget_target", lit "stale");
            (lit "notification_tracker", lit "")]
           _ [] []).
  vm_compute; reflexivity.
Defined.

(** X21: a call of [prompt_for_paths] on settings whose markdown path is
    set reads no input and keeps the markdown path and the output
    directory; and once a call has returned settings with a markdown path
    that is not empty, calling it again on them, with any input, reads
    nothing and changes nothing. *)
Theorem X21_prompt_for_paths_settles (home_dir : option str)
  (paths paths' : dict) (stdin stdin' : list str) :
  prompt_for_paths home_dir paths stdin = (Returns paths', stdin') ->
  (forall md, dict_get (lit "markdown") paths = Some md -> md <> [] ->
              stdin' = stdin
              /\ dict_get (lit "markdown") paths' = Some md
              /\ dict_get (lit "output_dir") paths'
                 = dict_get (lit "output_dir") paths)
  /\ (forall md, dict_get (lit "markdown") paths' = Some md -> md <> [] ->
                 forall stdin2,
                   prompt_for_paths home_dir paths' stdin2
                   = (Returns paths', stdin2)).
Proof.
  intros H.
  destruct (prompt_for_paths_returns _ _ _ H)
    as [paths1 [od [md1 [M [O [E Hset]]]]]].
  split.
  - intros md Hm N. destruct (Hset md Hm N) as [-> ->].
    subst paths'. rewrite !dict_get_set_other by reflexivity. auto.
  - intros md Hm N stdin2.
    assert (Ho : dict_get (lit "output_dir") paths' = Some od).
    { subst paths'; rewrite !dict_get_set_other by reflexivity; exact O. }
    assert (Hw : dict_get (lit "pushWidget_target") paths'
                 = Some (path_join od [lit "pushWidget"])).
    { subst paths'; rewrite dict_get_set_other by reflexivity.
      apply dict_get_set_same. }
    assert (Ht : dict_get (lit "notification_tracker") paths'
                 = Some (path_join od [lit "notification_tracker.txt"])).
    { subst paths'; apply dict_get_set_same. }
    unfold prompt_for_paths.
    destruct home_dir as [home|]; [|discriminate H].
    rewrite Hm. destruct md as [|c md]; [congruence|].
    rewrite Ho.
    rewrite (dict_set_get_same _ _ Hw), (dict_set_get_same _ _ Ht).
    reflexivity.
Qed.

Lemma X21_prompt_for_paths_settles_witness :
  prompt_for_paths (Some (lit "/home/u"))
    [(lit "markdown", lit "/home/u/Sync/Logseq/pages/Logpush.md");
     (lit "output_dir", lit "/home/u/Sync/Logseq/assets/logpush");
     (lit "pushWidget_target",
      lit "/home/u/Sync/Logseq/assets/logpush/pushWidget");
     (lit "notification_tracker",
      lit "/home/u/Sync/Logseq/assets/logpush/notification_tracker.txt")]
    [lit "n"]
  = (Returns
       [(lit "markdown", lit "/home/u/Sync/Logseq/pages/Logpush.md");
        (lit "output_dir", lit "/home/u/Sync/Logseq/assets/logpush");
        (lit "pushWidget_target",
         lit "/home/u/Sync/Logseq/assets/logpush/pushWidget");
        (lit "notification_tracker",
         lit "/home/u/Sync/Logseq/assets/logpush/notification_tracker.txt")],
     [lit "n"]).
Proof.
  apply (proj2 (@X21_prompt_for_paths_settles (Some (lit "/home/u"))
                  [(lit "markdown", lit "");
                   (lit "output_dir", lit "");
                   (lit "pushWidget_target", lit "");
                   (lit "notification_tracker", lit "")]
                  _ [lit " Y "] [] ltac:(vm_compute; reflexivity))
           (lit "/home/u/Sync/Logseq/pages/Logpush.md")).
  - vm_compute; reflexivity.
  - discriminate.
Defined.



(** * Widget file paths *)

Lemma to_uint_nonnil (n : nat) : Nat.to_uint n <> Decimal.Nil.
Proof.
  pose proof (DecimalNat.Unsigned.to_of (Nat.to_uint n)) as H.
  rewrite DecimalNat.Unsigned.of_to in H.
  rewrite H; apply DecimalFacts.unorm_nonnil.
Qed.

Lemma str_of_nat_inj (i j : nat) : str_of_nat i = str_of_nat j -> i = j.
Proof.
  unfold str_of_nat, lit; intros H.
  apply (f_equal string_of_list_ascii) in H.
  rewrite !string_of_list_ascii_of_string in H.
  apply DecimalNat.Unsigned.to_uint_inj.
  pose proof (DecimalString.NilZero.usu _ (to_uint_nonnil i)) as Hi.
  pose proof (DecimalString.NilZero.usu _ (to_uint_nonnil j)) as Hj.
  rewrite H in Hi; rewrite Hi in Hj; inversion Hj; reflexivity.
Qed.

Lemma join_step_relative (path : str) (c : ascii) (b : str) :
  Ascii.eqb c sep = false -> join_step path (c :: b) = join_lead path ++ c :: b.
Proof.
  intros H; unfold join_step, join_lead; rewrite H.
  destruct path as [|x path]; [reflexivity|].
  destruct (endswith_char sep (x :: path)); [reflexivity|].
  rewrite <- app_assoc; reflexivity.
Qed.

Lemma widget_file_path_eq (output_dir : str) (index : nat) :
  widget_file_path output_dir index
  = join_lead output_dir ++ lit "pushWidget" ++ str_of_nat index ++ lit ".txt".
Proof.
  unfold widget_file_path, path_join; cbn [fold_left].
  exact (@join_step_relative output_dir "p"%char _ eq_refl).
Qed.

(** X23: the widget files of a run do not collide: for any output
    directory the paths that [write_task_file] opens for two different
    slot numbers are different, and with the directories as
    [prompt_for_paths] derives them no widget path is the path of the
    tracker file. *)
Theorem X23_widget_paths_do_not_collide (output_dir : str) :
  (forall dir i j, i <> j -> widget_file_path dir i <> widget_file_path dir j)
  /\ forall i,
      widget_file_path (path_join output_dir [lit "pushWidget"]) i
      <> path_join output_dir [lit "notification_tracker.txt"].
Proof.
  split.
  - intros dir i j N; rewrite !widget_file_path_eq; intros H.
    apply app_inv_head in H. apply app_inv_head in H.
    apply app_inv_tail in H. exact (N (str_of_nat_inj _ _ H)).
  - intros i; rewrite widget_file_path_eq.
    unfold path_join; cbn [fold_left].
    rewrite (@join_step_relative output_dir "p"%char (lit "ushWidget") eq_refl
             : join_step output_dir (lit "pushWidget") = _).
    rewrite (@join_step_relative output_dir "n"%char
               (lit "otification_tracker.txt") eq_refl
             : join_step output_dir (lit "notification_tracker.txt") = _).
    change ("p"%char :: lit "ushWidget") with (lit "pushWidget").
    assert (L : join_lead (join_lead output_dir ++ lit "pushWidget")
                = (join_lead output_dir ++ lit "pushWidget") ++ [sep]).
    { unfold join_lead at 1.
      destruct (join_lead output_dir ++ lit "pushWidget") as [|x r] eqn:E.
      - destruct (join_lead output_dir); discriminate E.
      - rewrite <- E. unfold endswith_char.
        rewrite rev_app_distr; reflexivity. }
    rewrite L, <- !app_assoc. intros H.
    apply app_inv_head in H. discriminate H.
Qed.

Lemma X23_widget_paths_witness :
  widget_file_path (lit "/notes/out/pushWidget") 0
  <> widget_file_path (lit "/notes/out/pushWidget") 4.
Proof.
  apply (proj1 (X23_widget_paths_do_not_collide (lit "/notes/out"))
           (lit "/notes/out/pushWidget") 0 4).
  discriminate.
Defined.

(** X24: the settings that [main] installs when the configuration has no
    default profile name the widget directory ['pushwidget_target'],
    while [prompt_for_paths] writes ['pushWidget_target'].  Whatever the
    user answers, after [prompt_for_paths] has returned on them the
    misspelt setting is still empty next to the four that are read, so
    the test [all(paths.values())] of [main] fails. *)
Theorem X24_fallback_settings_stay_incomplete (home_dir : option str)
  (paths' : dict) (stdin stdin' : list str) :
  prompt_for_paths home_dir main_fallback_paths stdin
  = (Returns paths', stdin') ->
  all_values paths' = false
  /\ dict_get (lit "pushwidget_target") paths' = Some []
  /\ exists target, dict_get (lit "pushWidget_target") paths' = Some target
                    /\ target <> [].
Proof.
  unfold prompt_for_paths.
  destruct home_dir as [home|]; [|discriminate].
  cbn [main_fallback_paths dict_get].
  change (str_eqb (lit "markdown") (lit "markdown")) with true; cbv iota.
  destruct (get_user_choice _ _ stdin) as [[[md od]|e] stdin1];
    [|discriminate].
  rewrite dict_get_set_same.
  intros H; inversion H; subst; clear H.
  split; [|split].
  - vm_compute dict_set. unfold all_values; cbn [forallb snd].
    destruct md, od; reflexivity.
  - reflexivity.
  - eexists; split; [reflexivity|].
    destruct od as [|x od']; [discriminate|].
    destruct (endswith_char sep (x :: od')); discriminate.
Qed.

Lemma X24_fallback_settings_witness :
  all_values
    [(lit "markdown", lit "/home/u/Sync/Logseq/pages/Logpush.md");
     (lit "output_dir", lit "/home/u/Sync/Logseq/assets/logpush");
     (lit "pushwidget_target", lit "");
     (lit "notification_tracker",
      lit "/home/u/Sync/Logseq/assets/logpush/notification_tracker.txt");
     (lit "pushWidget_target",
      lit "/home/u/Sync/Logseq/assets/logpush/pushWidget")] = false.
Proof.
  apply (proj1 (@X24_fallback_settings_stay_incomplete
                  (Some (lit "/home/u")) _ [lit "y"] []
                  ltac:(vm_compute; reflexivity))).
Defined.
